(** * dipplanner: the Buhlmann ZH-L16 model (dipplanner/model/buhlmann/model.py)

    A shallow embedding of the [Model] class and of the parts of its
    collaborators that the model calls, followed by the properties of the
    segment operations, the ceiling queries, the coefficient tables, the
    validation and the cloning of a model.

    Conventions.
    - A Python float is a rational number ([Q]); comparisons are the exact
      ones of [Q], and a float division raises [ZeroDivisionError] on a zero
      divisor, as Python does.  Rounding, infinities and NaN are not
      modelled.
    - A method that mutates [self] is a computation in the monad [M]: it
      takes the object's state, returns the state it leaves behind and either
      a value or the exception it raised.
    - The modules [settings] and [tools], [math.exp] and the class [OxTox]
      are collaborators of [model.py]; what the model needs from them is
      gathered in the class [Env]. *)

From Stdlib Require Import QArith Qabs Lqa String.
From stdpp Require Import base list.

Open Scope Q_scope.

(** ** Floats *)

Definition Qltb (a b : Q) : bool := negb (Qle_bool b a).
Definition Qleb (a b : Q) : bool := Qle_bool a b.
Definition Qeqb (a b : Q) : bool := Qeq_bool a b.

Infix "<?" := Qltb : Q_scope.
Infix "<=?" := Qleb : Q_scope.
Infix "=?" := Qeqb : Q_scope.

(** ** Exceptions *)

Inductive exn : Type :=
| ModelStateException
| ModelValidationException
| ZeroDivisionError
| IndexError
| InvalidPressure
| InvalidCoefficient
| InvalidO2Exposure
| AttributeError.

Definition result (A : Type) : Type := (exn + A)%type.

(** [a / b] on floats. *)
Definition pydiv (a b : Q) : result Q :=
  if b =? 0 then inl ZeroDivisionError else inr (a / b).

(** ** The monad of methods: state of [self] and exceptions *)

Definition M (S A : Type) : Type := S -> result A * S.

Definition M_ret {S A} (a : A) : M S A := fun s => (inr a, s).

Definition M_bind {S A B} (f : A -> M S B) (c : M S A) : M S B :=
  fun s => match c s with
           | (inl e, s') => (inl e, s')
           | (inr a, s') => f a s'
           end.

#[export] Instance M_mret {S} : MRet (M S) := @M_ret S.
#[export] Instance M_mbind {S} : MBind (M S) := @M_bind S.

Definition raise {S A} (e : exn) : M S A := fun s => (inl e, s).
Definition get {S} : M S S := fun s => (inr s, s).

(** A computation that cannot touch the state. *)
Definition lift {S A} (r : result A) : M S A := fun s => (r, s).

(** ** The collaborators of [model.py] *)

Class Env : Type := {
  (* settings *)
  AMBIANT_PRESSURE_SURFACE : Q;
  DEFAULT_AIR_F_INNERT_GAS : Q;
  SURFACE_TEMP : Q;
  GF_LOW : Q;
  GF_HIGH : Q;
  DECO_MODEL : string;
  BUHLMANN_VALUES : string;
  (* tools *)
  calculate_pp_h2o_surf : Q -> Q;
  METRE_TO_BAR : Q;
  (* math *)
  math_exp : Q -> Q;
  math_log2 : Q;
  (* OxTox: the state of the object and its two mutators *)
  OxTox : Type;
  OxTox_new : OxTox;
  add_o2 : OxTox -> Q -> Q -> result OxTox;
  remove_o2 : OxTox -> Q -> result OxTox
}.

(** Modelled from the spec: [tools.depth_to_pressure] and
    [tools.pressure_to_depth] are absent from the sources; the spec describes
    them as the linear conversion between metres and bar by one constant. *)
Definition depth_to_pressure `{Env} (depth : Q) : Q := depth * METRE_TO_BAR.

Definition pressure_to_depth `{Env} (pressure : Q) : Q := pressure / METRE_TO_BAR.

(** ** Compartment *)

Module Compartment.

Record t : Type := mk {
  h_he : Q; h_n2 : Q;
  k_he : Q; k_n2 : Q;
  a_he : Q; b_he : Q;
  a_n2 : Q; b_n2 : Q;
  pp_he : Q; pp_n2 : Q
}.

(** Modelled from the spec: the class [Compartment] is absent from the
    sources.  [Compartment()] holds no gas and no coefficient yet. *)
Definition new : t := mk 0 0 0 0 0 0 0 0 0 0.

Section Methods.
Context `{Env}.

(** Modelled from the spec: [set_compartment_time_constants] stores the two
    half-times and the four M-value coefficients, derives
    k = ln 2 / (60 * half-time), and fails when an input is not positive. *)
Definition set_compartment_time_constants
    (h_he' h_n2' a_he' b_he' a_n2' b_n2' : Q) (c : t) : result t :=
  if (h_he' <=? 0) || (h_n2' <=? 0) || (a_he' <=? 0) || (b_he' <=? 0)
     || (a_n2' <=? 0) || (b_n2' <=? 0)
  then inl InvalidCoefficient
  else inr (mk h_he' h_n2'
               (math_log2 / (60 * h_he')) (math_log2 / (60 * h_n2'))
               a_he' b_he' a_n2' b_n2' (pp_he c) (pp_n2 c)).

(** Modelled from the spec: [set_pp] assigns the two partial pressures and
    fails when pp_n2 <= 0 or pp_he < 0. *)
Definition set_pp (pp_he' pp_n2' : Q) (c : t) : result t :=
  if (pp_n2' <=? 0) || (pp_he' <? 0) then inl InvalidPressure
  else inr (mk (h_he c) (h_n2 c) (k_he c) (k_n2 c)
               (a_he c) (b_he c) (a_n2 c) (b_n2 c) pp_he' pp_n2').

(** Modelled from the spec: the Haldane equation
    pp_new = pp_insp + (pp_old - pp_insp) * exp (- k * dt) for each gas;
    fails on a negative time or a negative inspired pressure. *)
Definition const_depth (pp_he_inspired pp_n2_inspired seg_time : Q) (c : t)
    : result t :=
  if (pp_he_inspired <? 0) || (pp_n2_inspired <? 0) || (seg_time <? 0)
  then inl ModelStateException
  else inr (mk (h_he c) (h_n2 c) (k_he c) (k_n2 c)
               (a_he c) (b_he c) (a_n2 c) (b_n2 c)
               (pp_he_inspired
                + (pp_he c - pp_he_inspired) * math_exp (- k_he c * seg_time))
               (pp_n2_inspired
                + (pp_n2 c - pp_n2_inspired) * math_exp (- k_n2 c * seg_time))).

(** Modelled from the spec: the Schreiner equation
    pp_new = pp_insp + rate * (dt - 1/k)
             - (pp_insp - pp_old - rate/k) * exp (- k * dt)
    for each gas; fails when the time is not positive. *)
Definition asc_desc (pp_he_inspired pp_n2_inspired rate_he rate_n2 seg_time : Q)
    (c : t) : result t :=
  if seg_time <=? 0 then inl ModelStateException
  else inr (mk (h_he c) (h_n2 c) (k_he c) (k_n2 c)
               (a_he c) (b_he c) (a_n2 c) (b_n2 c)
               (pp_he_inspired + rate_he * (seg_time - 1 / k_he c)
                - (pp_he_inspired - pp_he c - rate_he / k_he c)
                  * math_exp (- k_he c * seg_time))
               (pp_n2_inspired + rate_n2 * (seg_time - 1 / k_n2 c)
                - (pp_n2_inspired - pp_n2 c - rate_n2 / k_n2 c)
                  * math_exp (- k_n2 c * seg_time))).

End Methods.

(** The He/N2-weighted coefficients. *)
Definition a_mix (c : t) : Q :=
  (pp_he c * a_he c + pp_n2 c * a_n2 c) / (pp_he c + pp_n2 c).

Definition b_mix (c : t) : Q :=
  (pp_he c * b_he c + pp_n2 c * b_n2 c) / (pp_he c + pp_n2 c).

(** Modelled from the spec: the mixed-gas M-value at an ambient pressure;
    with no inert gas at all it is the surface a_n2. *)
Definition get_m_value_at (pressure : Q) (c : t) : Q :=
  if pp_he c + pp_n2 c =? 0 then a_n2 c
  else a_mix c + pressure / b_mix c.

(** Modelled from the spec: the tolerated ambient pressure
    (pp_he + pp_n2 - a_mix * gf) / (gf / b_mix - gf + 1); it may be
    negative. *)
Definition get_max_amb (gf : Q) (c : t) : Q :=
  (pp_he c + pp_n2 c - a_mix c * gf) / (gf / b_mix c - gf + 1).

(** Modelled from the spec: the supersaturation ratio
    (pp_he + pp_n2) / M-value. *)
Definition get_mv (p_amb : Q) (c : t) : Q :=
  (pp_he c + pp_n2 c) / get_m_value_at p_amb c.

End Compartment.

(** ** Gradient *)

Module Gradient.

Record t : Type := mk {
  gf_low : Q;
  gf_high : Q;
  first_stop_depth : option Q;
  gf : Q
}.

(** Modelled from the spec: the class [Gradient] is absent from the sources.
    A new gradient has no first stop yet and its current factor is the high
    one. *)
Definition new (low high : Q) : t := mk low high None high.

End Gradient.

(** ** Model *)

Module Model.

Definition COMPS : nat := 16.

(** The arguments of one call of
    [set_compartment_time_constants (h_he, h_n2, a_he, b_he, a_n2, b_n2)]. *)
Definition row : Type := (Q * Q * Q * Q * Q * Q)%type.

Definition row_h_he (r : row) : Q := let '(h, _, _, _, _, _) := r in h.
Definition row_h_n2 (r : row) : Q := let '(_, h, _, _, _, _) := r in h.
Definition row_a_he (r : row) : Q := let '(_, _, a, _, _, _) := r in a.
Definition row_b_he (r : row) : Q := let '(_, _, _, b, _, _) := r in b.
Definition row_a_n2 (r : row) : Q := let '(_, _, _, _, a, _) := r in a.
Definition row_b_n2 (r : row) : Q := let '(_, _, _, _, _, b) := r in b.

(** The calls [self.tissues[i].set_compartment_time_constants(...)] that
    each branch of [set_time_constants] makes, in order, as pairs of the
    index [i] and the arguments. *)
Definition ZHL16c (buhlmann_values : string) : list (nat * row) :=
  (if (buhlmann_values =? "1a")%string then
     [(0%nat, (1.51, 4.0, 1.7424, 0.4245, 1.2599, 0.5050))]
   else if (buhlmann_values =? "1b")%string then
     [(0%nat, (1.88, 5.0, 1.6189, 0.4770, 1.1696, 0.5578))]
   else [])
  ++ [ (1%nat, (3.02, 8.0, 1.3830, 0.5747, 1.0000, 0.6514));
       (2%nat, (4.72, 12.5, 1.1919, 0.6527, 0.8618, 0.7222));
       (3%nat, (6.99, 18.5, 1.0458, 0.7223, 0.7562, 0.7825));
       (4%nat, (10.21, 27.0, 0.9220, 0.7582, 0.6200, 0.8126));
       (5%nat, (14.48, 38.3, 0.8205, 0.7957, 0.5043, 0.8434));
       (6%nat, (20.53, 54.3, 0.7305, 0.8279, 0.4410, 0.8693));
       (7%nat, (29.11, 77.0, 0.6502, 0.8553, 0.4000, 0.8910));
       (8%nat, (41.20, 109.0, 0.5950, 0.8757, 0.3750, 0.9092));
       (9%nat, (55.19, 146.0, 0.5545, 0.8903, 0.3500, 0.9222));
       (10%nat, (70.69, 187.0, 0.5333, 0.8997, 0.3295, 0.9319));
       (11%nat, (90.34, 239.0, 0.5189, 0.9073, 0.3065, 0.9403));
       (12%nat, (115.29, 305.0, 0.5181, 0.9122, 0.2835, 0.9477));
       (13%nat, (147.42, 390.0, 0.5176, 0.9171, 0.2610, 0.9544));
       (14%nat, (188.24, 498.0, 0.5172, 0.9217, 0.2480, 0.9602));
       (15%nat, (240.03, 635.0, 0.5119, 0.9267, 0.2327, 0.9653)) ].

Definition ZHL16b (buhlmann_values : string) : list (nat * row) :=
  (if (buhlmann_values =? "1a")%string then
     [(0%nat, (1.51, 4.0, 1.7424, 0.4245, 1.2599, 0.5050))]
   else if (buhlmann_values =? "1b")%string then
     [(0%nat, (1.88, 5.0, 1.6189, 0.4770, 1.1696, 0.5578))]
   else [])
  ++ [ (1%nat, (3.02, 8.0, 1.3830, 0.5747, 1.0000, 0.6514));
       (2%nat, (4.72, 12.5, 1.1919, 0.6527, 0.8618, 0.7222));
       (3%nat, (6.99, 18.5, 1.0458, 0.7223, 0.7562, 0.7825));
       (4%nat, (10.21, 27.0, 0.9220, 0.7582, 0.6667, 0.8126));
       (5%nat, (14.48, 38.3, 0.8205, 0.7957, 0.5600, 0.8434));
       (6%nat, (20.53, 54.3, 0.7305, 0.8279, 0.4947, 0.8693));
       (7%nat, (29.11, 77.0, 0.6502, 0.8553, 0.4500, 0.8910));
       (8%nat, (41.20, 109.0, 0.5950, 0.8757, 0.4187, 0.9092));
       (9%nat, (55.19, 146.0, 0.5545, 0.8903, 0.3798, 0.9222));
       (10%nat, (70.69, 187.0, 0.5333, 0.8997, 0.3497, 0.9319));
       (11%nat, (90.34, 239.0, 0.5189, 0.9073, 0.3223, 0.9403));
       (12%nat, (115.29, 305.0, 0.5181, 0.9122, 0.2850, 0.9477));
       (13%nat, (147.42, 390.0, 0.5176, 0.9171, 0.2737, 0.9544));
       (14%nat, (188.24, 498.0, 0.5172, 0.9217, 0.2523, 0.9602));
       (15%nat, (240.03, 635.0, 0.5119, 0.9267, 0.2327, 0.9653)) ].

Definition ZHL16a (buhlmann_values : string) : list (nat * row) :=
  (if (buhlmann_values =? "1a")%string then
     [(0%nat, (1.51, 4.0, 1.7424, 0.4245, 1.2599, 0.5050))]
   else if (buhlmann_values =? "1b")%string then
     [(0%nat, (1.88, 5.0, 1.6189, 0.4770, 1.1696, 0.5578))]
   else [])
  ++ [ (1%nat, (3.02, 8.0, 1.3830, 0.5747, 1.0000, 0.6514));
       (2%nat, (4.72, 12.5, 1.1919, 0.6527, 0.8618, 0.7222));
       (3%nat, (6.99, 18.5, 1.0458, 0.7223, 0.7562, 0.7825));
       (4%nat, (10.21, 27.0, 0.9220, 0.7582, 0.6667, 0.8126));
       (5%nat, (14.48, 38.3, 0.8205, 0.7957, 0.5933, 0.8434));
       (6%nat, (20.53, 54.3, 0.7305, 0.8279, 0.5282, 0.8693));
       (7%nat, (29.11, 77.0, 0.6502, 0.8553, 0.4710, 0.8910));
       (8%nat, (41.20, 109.0, 0.5950, 0.8757, 0.4187, 0.9092));
       (9%nat, (55.19, 146.0, 0.5545, 0.8903, 0.3798, 0.9222));
       (10%nat, (70.69, 187.0, 0.5333, 0.8997, 0.3497, 0.9319));
       (11%nat, (90.34, 239.0, 0.5189, 0.9073, 0.3223, 0.9403));
       (12%nat, (115.29, 305.0, 0.5181, 0.9122, 0.2971, 0.9477));
       (13%nat, (147.42, 390.0, 0.5176, 0.9171, 0.2737, 0.9544));
       (14%nat, (188.24, 498.0, 0.5172, 0.9217, 0.2523, 0.9602));
       (15%nat, (240.03, 635.0, 0.5119, 0.9267, 0.2327, 0.9653)) ].

(** The arguments that a branch passes for compartment [i], if it sets it. *)
Fixpoint row_of (calls : list (nat * row)) (i : nat) : option row :=
  match calls with
  | [] => None
  | (j, r) :: calls' => if Nat.eqb i j then Some r else row_of calls' i
  end.

Section Methods.
Context `{Env}.

Record t : Type := mk {
  units : string;
  tissues : list Compartment.t;
  ox_tox : OxTox;
  gradient : Gradient.t;
  pp_h2o : Q;
  metadata : string
}.

Definition set_tissues (l : list Compartment.t) (self : t) : t :=
  mk (units self) l (ox_tox self) (gradient self) (pp_h2o self) (metadata self).

Definition set_ox_tox (o : OxTox) (self : t) : t :=
  mk (units self) (tissues self) o (gradient self) (pp_h2o self) (metadata self).

Definition set_gradient (g : Gradient.t) (self : t) : t :=
  mk (units self) (tissues self) (ox_tox self) g (pp_h2o self) (metadata self).

(** [self.ox_tox.method(...)]: the OxTox object is mutated unless the
    method raises. *)
Definition on_ox_tox (method : OxTox -> result OxTox) : M t unit :=
  fun self => match method (ox_tox self) with
              | inl e => (inl e, self)
              | inr o => (inr tt, set_ox_tox o self)
              end.

(** [self.tissues[i].method(...)]. *)
Definition on_tissue (i : nat) (method : Compartment.t -> result Compartment.t)
    : M t unit :=
  fun self => match tissues self !! i with
              | None => (inl IndexError, self)
              | Some comp =>
                  match method comp with
                  | inl e => (inl e, self)
                  | inr comp' => (inr tt, set_tissues (<[i := comp']> (tissues self)) self)
                  end
              end.

(** [for comp in l: comp.method(...)]: the compartments before the one that
    raises stay mutated. *)
Fixpoint for_each (method : Compartment.t -> result Compartment.t)
    (l : list Compartment.t) : list Compartment.t * option exn :=
  match l with
  | [] => ([], None)
  | comp :: l' =>
      match method comp with
      | inl e => (comp :: l', Some e)
      | inr comp' => let '(l'', e) := for_each method l' in (comp' :: l'', e)
      end
  end.

Definition for_tissues (method : Compartment.t -> result Compartment.t)
    : M t unit :=
  fun self => match for_each method (tissues self) with
              | (l, Some e) => (inl e, set_tissues l self)
              | (l, None) => (inr tt, set_tissues l self)
              end.

Definition init_gradient : M t unit :=
  fun self => (inr tt, set_gradient (Gradient.new GF_LOW GF_HIGH) self).

Fixpoint set_rows (calls : list (nat * row)) : M t unit :=
  match calls with
  | [] => mret tt
  | (i, (h_he, h_n2, a_he, b_he, a_n2, b_n2)) :: calls' =>
      on_tissue i (Compartment.set_compartment_time_constants
                     h_he h_n2 a_he b_he a_n2 b_n2) ;;
      set_rows calls'
  end.

Definition set_time_constants (deco_model : option string) : M t unit :=
  let deco_model := match deco_model with
                    | None => DECO_MODEL
                    | Some d => d
                    end in
  if (deco_model =? "ZHL16c")%string then set_rows (ZHL16c BUHLMANN_VALUES)
  else if (deco_model =? "ZHL16b")%string then set_rows (ZHL16b BUHLMANN_VALUES)
  else if (deco_model =? "ZHL16a")%string then set_rows (ZHL16a BUHLMANN_VALUES)
  else mret tt.

(** [Model()]. *)
Definition __init__ : result t :=
  let pp_h2o := calculate_pp_h2o_surf SURFACE_TEMP in
  let self := mk "metric" (replicate COMPS Compartment.new) OxTox_new
                 (Gradient.new GF_LOW GF_HIGH) pp_h2o "(none)" in
  match (set_time_constants None ;;
         for_tissues (Compartment.set_pp 0
                        (DEFAULT_AIR_F_INNERT_GAS
                         * (AMBIANT_PRESSURE_SURFACE - pp_h2o)))) self with
  | (inl e, _) => inl e
  | (inr _, self') => inr self'
  end.

(** The loop of [validate_model] over the compartments; the flag is
    [time_constant_zero]. *)
Fixpoint validate_loop (l : list Compartment.t) (time_constant_zero : bool)
    : result bool :=
  match l with
  | [] => inr time_constant_zero
  | comp :: l' =>
      if Compartment.pp_n2 comp <=? 0 then inl ModelValidationException
      else if Compartment.pp_he comp <? 0 then inl ModelValidationException
      else if existsb (Qeqb 0)
                [Compartment.k_he comp; Compartment.k_n2 comp;
                 Compartment.a_he comp; Compartment.b_he comp;
                 Compartment.a_n2 comp; Compartment.b_n2 comp]
           then validate_loop l' true
           else validate_loop l' time_constant_zero
  end.

Definition validate_model : M t bool :=
  self ← get;
  time_constant_zero ← lift (validate_loop (tissues self) false);
  (if time_constant_zero : bool then set_time_constants None else mret tt) ;;
  mret true.

(** The loop of [control_compartment] over [range(0, self.COMPS)]. *)
Fixpoint control_loop (self : t) (comp_numbers : list nat)
    (control_compartment_number : nat) (max_pressure : Q) : result nat :=
  match comp_numbers with
  | [] => inr control_compartment_number
  | comp_number :: rest =>
      match tissues self !! comp_number with
      | None => inl IndexError
      | Some comp =>
          let pressure :=
            Compartment.get_max_amb (Gradient.gf (gradient self)) comp
            - AMBIANT_PRESSURE_SURFACE in
          if max_pressure <? pressure
          then control_loop self rest comp_number pressure
          else control_loop self rest control_compartment_number max_pressure
      end
  end.

Definition control_compartment (self : t) : result nat :=
  match control_loop self (seq 0 COMPS) 0%nat 0 with
  | inl e => inl e
  | inr control_compartment_number => inr (control_compartment_number + 1)%nat
  end.

(** [if comp_pressure > pressure: pressure = comp_pressure], the body of the
    loops of [ceiling], [ceiling_in_pabs] and [m_value]. *)
Definition keep_greater (pressure comp_pressure : Q) : Q :=
  if pressure <? comp_pressure then comp_pressure else pressure.

Definition ceiling (self : t) : Q :=
  let pressure :=
    fold_left
      (fun pressure comp =>
         keep_greater pressure
           (Compartment.get_max_amb (Gradient.gf (gradient self)) comp
            - AMBIANT_PRESSURE_SURFACE))
      (tissues self) 0 in
  pressure_to_depth pressure.

Definition ceiling_in_pabs (self : t) : Q :=
  fold_left
    (fun pressure comp =>
       keep_greater pressure
         (Compartment.get_max_amb (Gradient.gf (gradient self)) comp))
    (tissues self) 0.

Definition m_value (pressure : Q) (self : t) : Q :=
  let p_absolute := pressure + AMBIANT_PRESSURE_SURFACE in
  fold_left
    (fun max_mv comp => keep_greater max_mv (Compartment.get_mv p_absolute comp))
    (tissues self) 0.

Definition const_depth (pressure seg_time f_he f_n2 pp_o2 : Q) : M t unit :=
  self ← get;
  let ambiant_pressure := pressure + AMBIANT_PRESSURE_SURFACE in
  '(pp_he_inspired, pp_n2_inspired) ←
    (if 0 <? pp_o2 then
       (* CCR mode *)
       let p_inert :=
         if 0 <? f_he + f_n2
         then ambiant_pressure - pp_o2 - pp_h2o self
         else 0 in
       '(pp_he_inspired, pp_n2_inspired) ←
         (if 0 <? p_inert then
            pp_he_inspired ← lift (pydiv (p_inert * f_he) (f_he + f_n2));
            pp_n2_inspired ← lift (pydiv (p_inert * f_n2) (f_he + f_n2));
            mret (pp_he_inspired, pp_n2_inspired)
          else mret (0, 0));
       let pp_o2_inspired := pp_o2 in
       (if (pp_o2_inspired <=? ambiant_pressure) && (0 <? p_inert)
        then on_ox_tox (fun o => add_o2 o seg_time pp_o2)
        else on_ox_tox
               (fun o => add_o2 o seg_time (ambiant_pressure - pp_h2o self))) ;;
       mret (pp_he_inspired, pp_n2_inspired)
     else
       (* OC mode *)
       let pp_he_inspired := (ambiant_pressure - pp_h2o self) * f_he in
       let pp_n2_inspired := (ambiant_pressure - pp_h2o self) * f_n2 in
       (if pressure =? 0
        then on_ox_tox (fun o => remove_o2 o seg_time)
        else on_ox_tox
               (fun o => add_o2 o seg_time
                           ((ambiant_pressure - pp_h2o self)
                            * (1 - f_he - f_n2)))) ;;
       mret (pp_he_inspired, pp_n2_inspired));
  if 0 <? seg_time
  then for_tissues
         (Compartment.const_depth pp_he_inspired pp_n2_inspired seg_time)
  else mret tt.

Definition asc_desc (start finish rate f_he f_n2 pp_o2 : Q) : M t unit :=
  self ← get;
  let start_ambiant_pressure := start + AMBIANT_PRESSURE_SURFACE in
  let finish_ambiant_pressure := finish + AMBIANT_PRESSURE_SURFACE in
  let rate := depth_to_pressure rate in
  quotient ← lift (pydiv (finish - start) rate);
  let seg_time := Qabs quotient in
  '(pp_he_inspired, pp_n2_inspired, rate_he, rate_n2) ←
    (if 0 <? pp_o2 then
       (* CCR mode *)
       let p_inert_start := start_ambiant_pressure - pp_o2 - pp_h2o self in
       let p_inert_finish := finish_ambiant_pressure - pp_o2 - pp_h2o self in
       let p_inert_start := if p_inert_start <? 0 then 0 else p_inert_start in
       let p_inert_finish := if p_inert_finish <? 0 then 0 else p_inert_finish in
       '(pp_he_inspired, pp_n2_inspired, rate_he, rate_n2) ←
         (if 0 <? f_he + f_n2 then
            pp_he_inspired ← lift (pydiv (p_inert_start * f_he) (f_he + f_n2));
            pp_n2_inspired ← lift (pydiv (p_inert_start * f_n2) (f_he + f_n2));
            he_finish ← lift (pydiv (p_inert_finish * f_he) (f_he + f_n2));
            rate_he ← lift (pydiv (he_finish - pp_he_inspired) seg_time);
            n2_finish ← lift (pydiv (p_inert_finish * f_n2) (f_he + f_n2));
            rate_n2 ← lift (pydiv (n2_finish - pp_n2_inspired) seg_time);
            mret (pp_he_inspired, pp_n2_inspired, rate_he, rate_n2)
          else mret (0, 0, 0, 0));
       on_ox_tox (fun o => add_o2 o seg_time pp_o2) ;;
       mret (pp_he_inspired, pp_n2_inspired, rate_he, rate_n2)
     else
       (* OC mode *)
       let pp_he_inspired := (start_ambiant_pressure - pp_h2o self) * f_he in
       let pp_n2_inspired := (start_ambiant_pressure - pp_h2o self) * f_n2 in
       let rate_he := rate * f_he in
       let rate_n2 := rate * f_n2 in
       let pp_o2_inspired_avg :=
         ((start_ambiant_pressure - finish_ambiant_pressure) / 2
          + finish_ambiant_pressure - pp_h2o self) * (1 - f_he - f_n2) in
       on_ox_tox (fun o => add_o2 o seg_time pp_o2_inspired_avg) ;;
       mret (pp_he_inspired, pp_n2_inspired, rate_he, rate_n2));
  for_tissues
    (Compartment.asc_desc pp_he_inspired pp_n2_inspired rate_he rate_n2 seg_time).

End Methods.

End Model.

(** ** Objects and references

    [copy.deepcopy] is about which objects two models share, so the objects
    live in a store: a reference is an index into it, a new object is
    appended, and a method called through a reference mutates the objects
    that the reference leads to. *)

Module Heap.

Abbreviation loc := nat.

Inductive obj `{Env} : Type :=
| OCompartment (c : Compartment.t)
| OOxTox (o : OxTox)
| OGradient (g : Gradient.t)
| OList (l : list loc)
| OModel (units : string) (tissues ox_tox gradient : loc) (pp_h2o : Q)
         (metadata : string).

Abbreviation heap := (list obj).

(** The references that an object holds. *)
Definition refs `{Env} (o : obj) : list loc :=
  match o with
  | OList l => l
  | OModel _ tissues ox_tox gradient _ _ => [tissues; ox_tox; gradient]
  | _ => []
  end.

Section Heap.
Context `{Env}.

Definition new (o : obj) : M heap loc := fun h => (inr (length h), h ++ [o]).

Definition load (l : loc) : M heap obj :=
  fun h => match h !! l with
           | Some o => (inr o, h)
           | None => (inl AttributeError, h)
           end.

Definition store (l : loc) (o : obj) : M heap unit :=
  fun h => (inr tt, <[l := o]> h).

Definition load_model (l : loc)
    : M heap (string * loc * loc * loc * Q * string) :=
  o ← load l;
  match o with
  | OModel u tl ox g p md => mret (u, tl, ox, g, p, md)
  | _ => raise AttributeError
  end.

Definition load_list (l : loc) : M heap (list loc) :=
  o ← load l;
  match o with
  | OList ls => mret ls
  | _ => raise AttributeError
  end.

Definition is_leaf (o : obj) : bool :=
  match o with
  | OCompartment _ | OOxTox _ | OGradient _ => true
  | _ => false
  end.

(** [for x in l: f x], collecting the results. *)
Fixpoint for_list {A B} (f : A -> M heap B) (l : list A) : M heap (list B) :=
  match l with
  | [] => mret []
  | x :: l' => y ← f x; ys ← for_list f l'; mret (y :: ys)
  end.

(** Modelled from the spec: [copy.deepcopy] of a compartment, of the OxTox
    or of the gradient is a new object with the same fields (they hold
    floats only). *)
Definition deepcopy (l : loc) : M heap loc :=
  o ← load l;
  if is_leaf o then new o else raise AttributeError.

(** The value of the model that a reference leads to, if the reference and
    the references below it are sound. *)
Definition view_compartment (h : heap) (l : loc) : option Compartment.t :=
  match h !! l with
  | Some (OCompartment c) => Some c
  | _ => None
  end.

Definition view (h : heap) (l : loc) : option Model.t :=
  match h !! l with
  | Some (OModel u tl ox g p md) =>
      match h !! tl, h !! ox, h !! g with
      | Some (OList ls), Some (OOxTox o), Some (OGradient gr) =>
          match mapM (view_compartment h) ls with
          | Some comps => Some (Model.mk u comps o gr p md)
          | None => None
          end
      | _, _, _ => None
      end
  | _ => None
  end.

Definition read_model (l : loc) : M heap Model.t :=
  fun h => match view h l with
           | Some v => (inr v, h)
           | None => (inl AttributeError, h)
           end.

(** The fields of the objects below [l] are overwritten in place with the
    value [v]; no reference changes. *)
Definition write_model (l : loc) (v : Model.t) : M heap unit :=
  '(_, tl, ox, g, _, _) ← load_model l;
  ls ← load_list tl;
  store ox (OOxTox (Model.ox_tox v)) ;;
  store g (OGradient (Model.gradient v)) ;;
  for_list (fun '(lc, comp) => store lc (OCompartment comp))
           (zip ls (Model.tissues v)) ;;
  store l (OModel (Model.units v) tl ox g (Model.pp_h2o v) (Model.metadata v)).

(** [obj.method(...)] through the reference [l]: the method runs on the
    objects below [l] and leaves them mutated, also when it raises. *)
Definition call {A} (l : loc) (method : M Model.t A) : M heap A :=
  v ← read_model l;
  let '(r, v') := method v in
  write_model l v' ;;
  lift r.

(** [Model()]: the objects of a new model are new objects. *)
Definition alloc_model (v : Model.t) : M heap loc :=
  ox ← new (OOxTox (Model.ox_tox v));
  g ← new (OGradient (Model.gradient v));
  ts ← for_list (fun comp => new (OCompartment comp)) (Model.tissues v);
  tl ← new (OList ts);
  new (OModel (Model.units v) tl ox g (Model.pp_h2o v) (Model.metadata v)).

Definition Model_new : M heap loc :=
  v ← lift Model.__init__;
  alloc_model v.

(** [newobj.tissues[i] = copy.deepcopy(self.tissues[i])]. *)
Definition copy_tissue (self_tissues : list loc) (newobj : loc) (i : nat)
    : M heap unit :=
  match self_tissues !! i with
  | None => raise IndexError
  | Some lc =>
      lc' ← deepcopy lc;
      '(_, tl, _, _, _, _) ← load_model newobj;
      ls ← load_list tl;
      if decide (i < length ls)%nat
      then store tl (OList (<[i := lc']> ls))
      else raise IndexError
  end.

Definition __deepcopy__ (self : loc) : M heap loc :=
  newobj ← Model_new;
  '(self_units, self_tl, self_ox, self_g, _, self_md) ← load_model self;
  (* newobj.units = self.units *)
  '(_, tl, ox, g, p, md) ← load_model newobj;
  store newobj (OModel self_units tl ox g p md) ;;
  (* newobj.ox_tox = copy.deepcopy(self.ox_tox) *)
  ox' ← deepcopy self_ox;
  '(u, tl, _, g, p, md) ← load_model newobj;
  store newobj (OModel u tl ox' g p md) ;;
  (* newobj.gradient = copy.deepcopy(self.gradient) *)
  g' ← deepcopy self_g;
  '(u, tl, ox, _, p, md) ← load_model newobj;
  store newobj (OModel u tl ox g' p md) ;;
  (* newobj.metadata = self.metadata *)
  '(u, tl, ox, g, p, _) ← load_model newobj;
  store newobj (OModel u tl ox g p self_md) ;;
  self_tissues ← load_list self_tl;
  for_list (copy_tissue self_tissues newobj) (seq 0 (length self_tissues)) ;;
  mret newobj.

(** The store after a sequence of method calls through [l]; a call that
    raises does not stop the caller from making the next one. *)
Definition calls (l : loc) (methods : list (M Model.t unit)) (h : heap) : heap :=
  fold_left (fun h method => snd (call l method h)) methods h.

End Heap.

End Heap.

(** ** An environment to run the model in

    The settings are dipplanner's defaults.  The OxTox object records the
    calls it receives, so that the arguments passed to it can be read off its
    state; the exponential is replaced by a rational function that is exact
    at 0 and positive and increasing on the negative numbers. *)

Inductive ox_call : Type :=
| AddO2 (time pp_o2 : Q)
| RemoveO2 (time : Q).

Definition recording_env : Env := {|
  AMBIANT_PRESSURE_SURFACE := 1.01325;
  DEFAULT_AIR_F_INNERT_GAS := 0.7902;
  SURFACE_TEMP := 20;
  GF_LOW := 0.30;
  GF_HIGH := 0.80;
  DECO_MODEL := "ZHL16c";
  BUHLMANN_VALUES := "1b";
  calculate_pp_h2o_surf := fun _ => 0.0627;
  METRE_TO_BAR := 0.0998;
  math_exp := fun x => 1 / (1 - x);
  math_log2 := 0.693147;
  OxTox := list ox_call;
  OxTox_new := [];
  add_o2 := fun o time pp_o2 => inr (o ++ [AddO2 time pp_o2]);
  remove_o2 := fun o time => inr (o ++ [RemoveO2 time])
|}.

(** The model that [Model()] builds in that environment, or an empty one
    should the construction raise. *)
Definition fresh_model : @Model.t recording_env :=
  match @Model.__init__ recording_env with
  | inr self => self
  | inl _ => @Model.mk recording_env "metric" [] [] (Gradient.new 0.30 0.80) 0 ""
  end.

(** ** Notions used by the statements *)



(** [r] is one of [xs] and none of [xs] is greater. *)
Definition greatest_of (r : Q) (xs : list Q) : Prop :=
  r ∈ xs /\ forall x, x ∈ xs -> x <= r.

(** The fresh model after every compartment was washed out to 0.1 bar of
    nitrogen. *)
Definition washed_out_model : @Model.t recording_env :=
  snd (@Model.for_tissues recording_env
         (@Compartment.set_pp 0 0.1) fresh_model).

(** What the loop of [control_compartment] has established once the
    compartments below [s] were visited: either no compartment exceeded the
    surface pressure yet, or [number] is the first of the visited
    compartments whose excess [max_pressure] is the greatest. *)
Definition control_inv `{Env} (self : Model.t) (s number : nat)
    (max_pressure : Q) : Prop :=
  let excess comp :=
    Compartment.get_max_amb (Gradient.gf (Model.gradient self)) comp
    - AMBIANT_PRESSURE_SURFACE in
  (number = 0%nat /\ max_pressure = 0 /\
   forall j comp, (j < s)%nat -> Model.tissues self !! j = Some comp ->
                  excess comp <= 0)
  \/
  ((number < s)%nat /\ 0 < max_pressure /\
   (exists comp, Model.tissues self !! number = Some comp /\
                 excess comp = max_pressure) /\
   forall j comp, (j < s)%nat -> Model.tissues self !! j = Some comp ->
                  excess comp <= max_pressure /\
                  ((j < number)%nat -> excess comp < max_pressure)).

(** A segment operation and its arguments. *)
Inductive segment : Type :=
| ConstDepth (pressure seg_time f_he f_n2 pp_o2 : Q)
| AscDesc (start finish rate f_he f_n2 pp_o2 : Q).

Definition run_segment `{Env} (seg : segment) : M Model.t unit :=
  match seg with
  | ConstDepth pressure seg_time f_he f_n2 pp_o2 =>
      Model.const_depth pressure seg_time f_he f_n2 pp_o2
  | AscDesc start finish rate f_he f_n2 pp_o2 =>
      Model.asc_desc start finish rate f_he f_n2 pp_o2
  end.




(** The model after a call on its OxTox followed by [rest], or unchanged if
    the OxTox raises. *)
Definition after_ox_tox `{Env} {A} (r : result OxTox) (rest : M Model.t A)
    (self : Model.t) : result A * Model.t :=
  match r with
  | inl e => (inl e, self)
  | inr o => rest (Model.set_ox_tox o self)
  end.

(** The inert pressure of the closed circuit as the spec defines it:
    max (0, P_amb - pp_o2 - pp_h2o). *)
Definition spec_p_inert (ambiant_pressure pp_o2 pp_h2o : Q) : Q :=
  if ambiant_pressure - pp_o2 - pp_h2o <? 0 then 0
  else ambiant_pressure - pp_o2 - pp_h2o.

(** The configuration names a table and a first row. *)
Definition settings_valid `{Env} : Prop :=
  (DECO_MODEL = "ZHL16a" \/ DECO_MODEL = "ZHL16b" \/ DECO_MODEL = "ZHL16c")%string /\
  (BUHLMANN_VALUES = "1a" \/ BUHLMANN_VALUES = "1b")%string.

Definition pp_valid (comp : Compartment.t) : Prop :=
  0 < Compartment.pp_n2 comp /\ 0 <= Compartment.pp_he comp.

Definition same_pp (comp comp' : Compartment.t) : Prop :=
  Compartment.pp_he comp = Compartment.pp_he comp' /\
  Compartment.pp_n2 comp = Compartment.pp_n2 comp'.



(** The k of compartment [i] derive from the half-times of row [i] (the
    three tables have the same half-times; ZH-L16b stands for them). *)
Definition loaded_k `{Env} (i : nat) (comp : Compartment.t) : Prop :=
  exists row,
    Model.row_of (Model.ZHL16b BUHLMANN_VALUES) i = Some row /\
    Compartment.k_he comp = math_log2 / (60 * Model.row_h_he row) /\
    Compartment.k_n2 comp = math_log2 / (60 * Model.row_h_n2 row).


(** The call [self.tissues[i].set_compartment_time_constants(row)] is in
    range, returns, keeps the pressures and leaves the k of row [i]. *)
Definition good_call `{Env} (call : nat * Model.row) : Prop :=
  let '(i, (h_he, h_n2, a_he, b_he, a_n2, b_n2)) := call in
  (i < Model.COMPS)%nat /\
  forall comp, exists comp',
    Compartment.set_compartment_time_constants h_he h_n2 a_he b_he a_n2 b_n2 comp
    = inr comp' /\
    same_pp comp comp' /\ loaded_k i comp'.

(** The store [h] still holds every object of the store [h0] at its
    place. *)
Definition extends `{Env} (h0 h : Heap.heap) : Prop :=
  forall l o, h0 !! l = Some o -> h !! l = Some o.

(** The objects at the places from [n] on refer to places from [n] on
    only. *)
Definition closed_above `{Env} (n : nat) (h : Heap.heap) : Prop :=
  forall l o, (n <= l)%nat -> h !! l = Some o ->
              Forall (fun r => (n <= r)%nat) (Heap.refs o).

(** The store [h] is the store [h0] followed by objects that keep to
    themselves. *)
Definition frame_inv `{Env} (h0 h : Heap.heap) : Prop :=
  extends h0 h /\ (length h0 <= length h)%nat /\ closed_above (length h0) h.

(** The computation [c] maintains [frame_inv h0], and what it returns
    satisfies [post]. *)
Definition preserves `{Env} {A} (h0 : Heap.heap) (c : M Heap.heap A)
    (post : A -> Prop) : Prop :=
  forall h, frame_inv h0 h ->
            frame_inv h0 (snd (c h)) /\ forall a, fst (c h) = inr a -> post a.

(** A store that holds the fresh model and nothing else. *)
Definition fresh_heap : list (@Heap.obj recording_env) :=
  snd (@Heap.alloc_model recording_env fresh_model []).

(** The store after the fresh model, at place 19, was cloned. *)
Definition cloned_heap : list (@Heap.obj recording_env) :=
  snd (@Heap.__deepcopy__ recording_env 19%nat fresh_heap).

(** The fresh model after twenty minutes at 4 bar on air. *)
Definition dived_model : @Model.t recording_env :=
  snd (@Model.const_depth recording_env 4 1200 0 0.79 0 fresh_model).

(** The methods of the class that change a model. *)
Inductive method : Type :=
| Segment (seg : segment)
| SetTimeConstants (deco_model : option string)
| ValidateModel
| InitGradient.

Definition run_method `{Env} (m : method) : M Model.t unit :=
  match m with
  | Segment seg => run_segment seg
  | SetTimeConstants deco_model => Model.set_time_constants deco_model
  | ValidateModel => Model.validate_model ;; mret tt
  | InitGradient => Model.init_gradient
  end.

(** No coefficient of the compartment is 0. *)
Definition no_zero (comp : Compartment.t) : Prop :=
  ~ 0 == Compartment.k_he comp /\ ~ 0 == Compartment.k_n2 comp /\
  ~ 0 == Compartment.a_he comp /\ ~ 0 == Compartment.b_he comp /\
  ~ 0 == Compartment.a_n2 comp /\ ~ 0 == Compartment.b_n2 comp.

(** The same environment with a first-row selector that the tables do not
    know. *)
Definition recording_env_1c : Env := {|
  AMBIANT_PRESSURE_SURFACE := 1.01325;
  DEFAULT_AIR_F_INNERT_GAS := 0.7902;
  SURFACE_TEMP := 20;
  GF_LOW := 0.30;
  GF_HIGH := 0.80;
  DECO_MODEL := "ZHL16c";
  BUHLMANN_VALUES := "1c";
  calculate_pp_h2o_surf := fun _ => 0.0627;
  METRE_TO_BAR := 0.0998;
  math_exp := fun x => 1 / (1 - x);
  math_log2 := 0.693147;
  OxTox := list ox_call;
  OxTox_new := [];
  add_o2 := fun o time pp_o2 => inr (o ++ [AddO2 time pp_o2]);
  remove_o2 := fun o time => inr (o ++ [RemoveO2 time])
|}.

(** A model with one empty compartment only. *)
Definition short_model : @Model.t recording_env :=
  Model.set_tissues [Compartment.new] fresh_model.

(** The object at [newobj] in the store [h] is a model of value [w] whose
    list of compartments lies outside the store [h0], which [h] extends. *)
Definition cloning `{Env} (h0 h : Heap.heap) (newobj : Heap.loc)
    (w : Model.t) : Prop :=
  extends h0 h /\ (length h0 <= newobj)%nat /\
  exists tl ox g ls,
    h !! newobj
    = Some (Heap.OModel (Model.units w) tl ox g (Model.pp_h2o w)
              (Model.metadata w)) /\
    h !! tl = Some (Heap.OList ls) /\ (length h0 <= tl)%nat /\
    h !! ox = Some (Heap.OOxTox (Model.ox_tox w)) /\
    h !! g = Some (Heap.OGradient (Model.gradient w)) /\
    Forall2 (fun lc comp => h !! lc = Some (Heap.OCompartment comp))
            ls (Model.tissues w).

(** * Properties *)

(** ** Comparisons of floats *)

Lemma Qltb_lt (a b : Q) : (a <? b) = true <-> a < b.
Proof.
  unfold Qltb. rewrite negb_true_iff, <- not_true_iff_false, Qle_bool_iff.
  split; [apply Qnot_le_lt | apply Qlt_not_le].
Qed.

Lemma Qltb_ge (a b : Q) : (a <? b) = false <-> b <= a.
Proof.
  unfold Qltb. rewrite negb_false_iff. apply Qle_bool_iff.
Qed.

Lemma Qleb_le (a b : Q) : (a <=? b) = true <-> a <= b.
Proof. apply Qle_bool_iff. Qed.

Lemma Qleb_gt (a b : Q) : (a <=? b) = false <-> b < a.
Proof.
  unfold Qleb. rewrite <- not_true_iff_false, Qle_bool_iff.
  split; [apply Qnot_le_lt | apply Qlt_not_le].
Qed.

Lemma Qeqb_eq (a b : Q) : (a =? b) = true <-> a == b.
Proof. apply Qeq_bool_iff. Qed.

(** Unfolding of the monad of methods. *)
Ltac run_monad :=
  unfold mbind, mret, M_mbind, M_mret, M_bind, M_ret, get, lift,
    Model.on_ox_tox, after_ox_tox; simpl.

(** ** The coefficient tables *)

Ltac table_rows i :=
  do 16 (destruct i as [|i]; [vm_compute; intuition (lia || discriminate)|]);
  vm_compute; exact I.

(** C5 (as amended).  The calls made for ZH-L16c and for ZH-L16b set the
    same compartments, and for every compartment the two rows agree on both
    half-times, on both He coefficients and on both b coefficients; their N2
    a coefficients differ exactly for the compartments 4 to 14. *)
Theorem ZHL16c_differs_from_ZHL16b (buhlmann_values : string) (i : nat) :
  match Model.row_of (Model.ZHL16c buhlmann_values) i,
        Model.row_of (Model.ZHL16b buhlmann_values) i with
  | Some c, Some b =>
      Model.row_h_he c == Model.row_h_he b /\
      Model.row_h_n2 c == Model.row_h_n2 b /\
      Model.row_a_he c == Model.row_a_he b /\
      Model.row_b_he c == Model.row_b_he b /\
      Model.row_b_n2 c == Model.row_b_n2 b /\
      (~ Model.row_a_n2 c == Model.row_a_n2 b <-> (4 <= i <= 14)%nat)
  | None, None => True
  | _, _ => False
  end.
Proof.
  unfold Model.ZHL16c, Model.ZHL16b.
  destruct (buhlmann_values =? "1a")%string;
    [|destruct (buhlmann_values =? "1b")%string]; table_rows i.
Qed.

(** C5, the claim as stated fails: compartment 14 lies outside 4..13 and its
    N2 a coefficient is 0.2480 in ZH-L16c and 0.2523 in ZH-L16b. *)
Lemma ZHL16c_compartment_14 :
  Model.row_a_n2 <$> Model.row_of (Model.ZHL16c "1b") 14 = Some 0.2480 /\
  Model.row_a_n2 <$> Model.row_of (Model.ZHL16b "1b") 14 = Some 0.2523 /\
  ~ 0.2480 == 0.2523.
Proof. repeat split. discriminate. Qed.

(** C6 (as amended).  The calls made for ZH-L16a and for ZH-L16b set the
    same compartments, and for every compartment the two rows agree on
    everything but the N2 a coefficient, which differs exactly for the
    compartments 5, 6, 7 and 12. *)
Theorem ZHL16a_differs_from_ZHL16b (buhlmann_values : string) (i : nat) :
  match Model.row_of (Model.ZHL16a buhlmann_values) i,
        Model.row_of (Model.ZHL16b buhlmann_values) i with
  | Some a, Some b =>
      Model.row_h_he a == Model.row_h_he b /\
      Model.row_h_n2 a == Model.row_h_n2 b /\
      Model.row_a_he a == Model.row_a_he b /\
      Model.row_b_he a == Model.row_b_he b /\
      Model.row_b_n2 a == Model.row_b_n2 b /\
      (~ Model.row_a_n2 a == Model.row_a_n2 b
       <-> (i = 5 \/ i = 6 \/ i = 7 \/ i = 12)%nat)
  | None, None => True
  | _, _ => False
  end.
Proof.
  unfold Model.ZHL16a, Model.ZHL16b.
  destruct (buhlmann_values =? "1a")%string;
    [|destruct (buhlmann_values =? "1b")%string]; table_rows i.
Qed.

(** C6, the claim as stated fails: the compartments 8 to 11 lie inside 5..12
    and have the same N2 a coefficient in ZH-L16a and in ZH-L16b. *)
Lemma ZHL16a_compartments_8_to_11 :
  Forall (fun i => Model.row_a_n2 <$> Model.row_of (Model.ZHL16a "1b") i
                   = Model.row_a_n2 <$> Model.row_of (Model.ZHL16b "1b") i)
         [8; 9; 10; 11]%nat /\
  Model.row_a_n2 <$> Model.row_of (Model.ZHL16a "1b") 8 = Some 0.4187.
Proof. split; [repeat constructor | reflexivity]. Qed.

(** ** The ceiling queries *)

Section Queries.
Context `{Env}.

Lemma keep_greater_cases (p x : Q) :
  (Model.keep_greater p x = x /\ p < x) \/ (Model.keep_greater p x = p /\ x <= p).
Proof.
  unfold Model.keep_greater. destruct (p <? x) eqn:E.
  - left. split; [reflexivity | now apply Qltb_lt].
  - right. split; [reflexivity | now apply Qltb_ge].
Qed.

(** The loop shared by the queries returns the greatest of its start value
    and the values it meets. *)
Lemma fold_keep_greater {A} (f : A -> Q) (l : list A) (p0 : Q) :
  greatest_of (fold_left (fun p a => Model.keep_greater p (f a)) l p0)
              (p0 :: map f l).
Proof.
  revert p0. induction l as [|a l IH]; intros p0; simpl.
  - split; [left | intros x Hx]. apply list_elem_of_singleton in Hx. subst. lra.
  - destruct (IH (Model.keep_greater p0 (f a))) as [Hin Hmax].
    assert (Hp0 : p0 <= Model.keep_greater p0 (f a) /\
                  f a <= Model.keep_greater p0 (f a)).
    { destruct (keep_greater_cases p0 (f a)) as [[-> ?]|[-> ?]]; lra. }
    split.
    + apply elem_of_cons in Hin as [Hin|Hin]; [|do 2 right; exact Hin].
      rewrite Hin.
      destruct (keep_greater_cases p0 (f a)) as [[-> ?]|[-> ?]];
        [right; left | left].
    + intros x Hx.
      assert (Hk : Model.keep_greater p0 (f a)
                   <= fold_left (fun p a => Model.keep_greater p (f a)) l
                        (Model.keep_greater p0 (f a))) by (apply Hmax; left).
      apply elem_of_cons in Hx as [->|Hx]; [lra|].
      apply elem_of_cons in Hx as [->|Hx]; [lra|].
      apply Hmax. right. exact Hx.
Qed.

(** C3 (as amended).  [ceiling] converts to metres the greatest of 0 and the
    tolerated pressures less the surface pressure, so it is never negative;
    [ceiling_in_pabs] subtracts nothing but starts from 0 as well: it is the
    greatest of 0 and the tolerated pressures, and is never negative
    either. *)
Theorem ceilings_start_from_zero (self : Model.t) (Hbar : 0 < METRE_TO_BAR) :
  let gf := Gradient.gf (Model.gradient self) in
  (exists pressure,
      greatest_of pressure
        (0 :: map (fun comp => Compartment.get_max_amb gf comp
                               - AMBIANT_PRESSURE_SURFACE)
                  (Model.tissues self)) /\
      Model.ceiling self = pressure_to_depth pressure /\
      0 <= Model.ceiling self) /\
  greatest_of (Model.ceiling_in_pabs self)
    (0 :: map (Compartment.get_max_amb gf) (Model.tissues self)) /\
  0 <= Model.ceiling_in_pabs self.
Proof.
  intros gf. split; [|split].
  - eexists. split; [|split].
    + apply (fold_keep_greater
               (fun comp => Compartment.get_max_amb gf comp
                            - AMBIANT_PRESSURE_SURFACE)).
    + reflexivity.
    + unfold Model.ceiling, pressure_to_depth.
      match goal with |- 0 <= ?p / _ => assert (Hp : 0 <= p) end.
      { apply (fold_keep_greater
                 (fun comp => Compartment.get_max_amb gf comp
                              - AMBIANT_PRESSURE_SURFACE)). left. }
      apply Qle_shift_div_l; [exact Hbar | lra].
  - apply (fold_keep_greater (Compartment.get_max_amb gf)).
  - apply (fold_keep_greater (Compartment.get_max_amb gf)). left.
Qed.

End Queries.

(** The ceilings of the fresh model. *)
Lemma ceilings_start_from_zero_witness :
  0 < @METRE_TO_BAR recording_env /\
  greatest_of (Model.ceiling_in_pabs fresh_model)
    (0 :: map (Compartment.get_max_amb
                 (Gradient.gf (Model.gradient fresh_model)))
              (Model.tissues fresh_model)).
Proof.
  split; [reflexivity|].
  apply (@ceilings_start_from_zero recording_env fresh_model).
  vm_compute; reflexivity.
Defined.

(** C3, the claim as stated fails: every compartment of the washed-out model
    tolerates a negative pressure, so the maximum over the compartments is
    negative, and [ceiling_in_pabs] returns 0. *)
Lemma ceiling_in_pabs_of_washed_out_model :
  Forall (fun comp =>
            Compartment.get_max_amb
              (Gradient.gf (Model.gradient washed_out_model)) comp < 0)
         (Model.tissues washed_out_model) /\
  length (Model.tissues washed_out_model) = 16%nat /\
  Model.ceiling_in_pabs washed_out_model = 0.
Proof.
  split; [|split; vm_compute; reflexivity].
  repeat constructor.
Qed.

(** ** The controlling compartment *)

Section Control.
Context `{Env}.

Lemma control_loop_inv (self : Model.t) (n : nat) :
  forall s number max_pressure,
    (s + n <= length (Model.tissues self))%nat ->
    control_inv self s number max_pressure ->
    exists number' max_pressure',
      Model.control_loop self (seq s n) number max_pressure = inr number' /\
      control_inv self (s + n) number' max_pressure'.
Proof.
  induction n as [|n IH]; intros s number max_pressure Hlen Hinv; simpl.
  - exists number, max_pressure. rewrite Nat.add_0_r. auto.
  - destruct (lookup_lt_is_Some_2 (Model.tissues self) s) as [comp Hcomp];
      [lia|].
    rewrite Hcomp. replace (s + S n)%nat with (S s + n)%nat by lia.
    set (pressure :=
           Compartment.get_max_amb (Gradient.gf (Model.gradient self)) comp
           - AMBIANT_PRESSURE_SURFACE).
    destruct (max_pressure <? pressure) eqn:E.
    + apply Qltb_lt in E. apply IH; [lia|]. right.
      destruct Hinv as [(-> & -> & Hle)|(Hlt & Hpos & _ & Hle)].
      * split; [lia|]. split; [exact E|]. split; [eauto|].
        intros j c Hj Hc. destruct (decide (j = s)) as [->|Hne].
        -- rewrite Hcomp in Hc. injection Hc as <-. split; [unfold pressure; lra | intros; lia].
        -- specialize (Hle j c ltac:(lia) Hc). split; intros; lra.
      * split; [lia|]. split; [lra|]. split; [eauto|].
        intros j c Hj Hc. destruct (decide (j = s)) as [->|Hne].
        -- rewrite Hcomp in Hc. injection Hc as <-. split; [unfold pressure; lra | intros; lia].
        -- destruct (Hle j c ltac:(lia) Hc) as [Hle' _]. split; intros; lra.
    + apply Qltb_ge in E. apply IH; [lia|].
      destruct Hinv as [(-> & -> & Hle)|(Hlt & Hpos & Hat & Hle)].
      * left. split; [reflexivity|]. split; [reflexivity|].
        intros j c Hj Hc. destruct (decide (j = s)) as [->|Hne].
        -- rewrite Hcomp in Hc. injection Hc as <-. exact E.
        -- apply (Hle j c); [lia | exact Hc].
      * right. split; [lia|]. split; [exact Hpos|]. split; [exact Hat|].
        intros j c Hj Hc. destruct (decide (j = s)) as [->|Hne].
        -- rewrite Hcomp in Hc. injection Hc as <-. split; [exact E | intros; lia].
        -- apply (Hle j c); [lia | exact Hc].
Qed.

(** C7 (as amended).  On a model of 16 compartments [control_compartment]
    returns a number between 1 and 16.  When some compartment tolerates more
    than the surface pressure, it is the 1-based index of the first
    compartment whose tolerated pressure is the greatest; when none does, it
    is 1. *)
Theorem control_compartment_first_greatest (self : Model.t)
    (Hlen : length (Model.tissues self) = Model.COMPS) :
  let max_amb := Compartment.get_max_amb (Gradient.gf (Model.gradient self)) in
  exists k,
    Model.control_compartment self = inr (k + 1)%nat /\
    (k < Model.COMPS)%nat /\
    ((k = 0%nat /\
      forall comp, comp ∈ Model.tissues self ->
                   max_amb comp <= AMBIANT_PRESSURE_SURFACE)
     \/
     (exists comp,
         Model.tissues self !! k = Some comp /\
         AMBIANT_PRESSURE_SURFACE < max_amb comp /\
         forall j comp', Model.tissues self !! j = Some comp' ->
                         max_amb comp' <= max_amb comp /\
                         ((j < k)%nat -> max_amb comp' < max_amb comp))).
Proof.
  intros max_amb.
  destruct (control_loop_inv self Model.COMPS 0 0 0) as (k & mp & Hrun & Hinv).
  - lia.
  - left. split; [reflexivity|]. split; [reflexivity|]. intros; lia.
  - exists k. unfold Model.control_compartment. rewrite Hrun.
    split; [reflexivity|]. simpl in Hinv.
    destruct Hinv as [(-> & -> & Hle)|(Hlt & Hpos & (comp & Hcomp & Hmp) & Hle)].
    + split; [unfold Model.COMPS; lia|]. left. split; [reflexivity|].
      intros comp Hin. apply list_elem_of_lookup in Hin as [j Hj].
      assert (Hjlt : (j < Model.COMPS)%nat).
      { rewrite <- Hlen. eapply lookup_lt_Some, Hj. }
      specialize (Hle j comp Hjlt Hj). unfold max_amb. lra.
    + subst mp. split; [exact Hlt|]. right. exists comp. split; [exact Hcomp|].
      split; [unfold max_amb; lra|].
      intros j comp' Hj.
      assert (Hjlt : (j < Model.COMPS)%nat).
      { rewrite <- Hlen. eapply lookup_lt_Some, Hj. }
      destruct (Hle j comp' Hjlt Hj) as [H1 H2].
      unfold max_amb. split; [lra|]. intros Hjk. specialize (H2 Hjk). lra.
Qed.

End Control.

(** The controlling compartment of the fresh model. *)
Lemma control_compartment_first_greatest_witness :
  length (Model.tissues fresh_model) = Model.COMPS /\
  exists k, Model.control_compartment fresh_model = inr (k + 1)%nat.
Proof.
  split; [vm_compute; reflexivity|].
  destruct (@control_compartment_first_greatest recording_env fresh_model)
    as (k & Hk & _); [vm_compute; reflexivity|].
  exists k. exact Hk.
Defined.

(** C7, the claim as stated fails: in the model that [Model()] builds no
    compartment tolerates more than the surface pressure; compartment 16
    tolerates strictly more than compartment 1, and [control_compartment]
    returns 1. *)
Lemma control_compartment_of_fresh_model :
  Model.control_compartment fresh_model = inr 1%nat /\
  match Model.tissues fresh_model !! 0%nat, Model.tissues fresh_model !! 15%nat with
  | Some comp1, Some comp16 =>
      Compartment.get_max_amb (Gradient.gf (Model.gradient fresh_model)) comp1
      < Compartment.get_max_amb (Gradient.gf (Model.gradient fresh_model)) comp16
  | _, _ => False
  end.
Proof. split; vm_compute; reflexivity. Qed.

(** ** The segment operations *)

Section Segments.
Context `{Env}.

Lemma pydiv_ok (a b : Q) : ~ b == 0 -> pydiv a b = inr (a / b).
Proof.
  intros Hb. unfold pydiv. destruct (b =? 0) eqn:E; [|reflexivity].
  apply Qeqb_eq in E. contradiction.
Qed.

Lemma pydiv_zero (a b : Q) : b == 0 -> pydiv a b = inl ZeroDivisionError.
Proof. intros Hb. unfold pydiv. apply Qeqb_eq in Hb. now rewrite Hb. Qed.

(** A call that raises whatever the compartment is stops the loop at the
    first compartment. *)
Lemma for_each_raises (method : Compartment.t -> result Compartment.t)
    (e : exn) (l : list Compartment.t) :
  (forall comp, method comp = inl e) ->
  Model.for_each method l = (l, match l with [] => None | _ => Some e end).
Proof. intros Hm. destruct l as [|comp l]; simpl; [|rewrite Hm]; reflexivity. Qed.

Lemma for_each_returns (method : Compartment.t -> result Compartment.t)
    (l : list Compartment.t) :
  (forall comp, exists comp', method comp = inr comp') ->
  exists l', Model.for_each method l = (l', None) /\
             Forall2 (fun comp comp' => method comp = inr comp') l l'.
Proof.
  intros Hm. induction l as [|comp l (l' & IH & Hall)]; simpl.
  - exists []. split; [reflexivity | constructor].
  - destruct (Hm comp) as [comp' Hcomp]. rewrite Hcomp, IH.
    exists (comp' :: l'). split; [reflexivity | now constructor].
Qed.




(** [const_depth] on a closed circuit: one call of [add_o2], then the loop
    over the tissues. *)
Lemma const_depth_closed_circuit (pressure seg_time f_he f_n2 pp_o2 : Q)
    (self : Model.t) :
  0 < pp_o2 ->
  let ambiant_pressure := pressure + AMBIANT_PRESSURE_SURFACE in
  let p_inert :=
    if 0 <? f_he + f_n2
    then ambiant_pressure - pp_o2 - Model.pp_h2o self else 0 in
  Model.const_depth pressure seg_time f_he f_n2 pp_o2 self
  = after_ox_tox
      (add_o2 (Model.ox_tox self) seg_time
         (if (pp_o2 <=? ambiant_pressure) && (0 <? p_inert)
          then pp_o2 else ambiant_pressure - Model.pp_h2o self))
      (if 0 <? seg_time
       then Model.for_tissues
              (Compartment.const_depth
                 (if 0 <? p_inert then p_inert * f_he / (f_he + f_n2) else 0)
                 (if 0 <? p_inert then p_inert * f_n2 / (f_he + f_n2) else 0)
                 seg_time)
       else mret tt)
      self.
Proof.
  intros Hpp ambiant_pressure p_inert. apply Qltb_lt in Hpp.
  unfold Model.const_depth. run_monad. rewrite Hpp.
  fold ambiant_pressure. fold p_inert.
  destruct (0 <? p_inert) eqn:Hinert.
  - assert (Hsum : ~ f_he + f_n2 == 0).
    { unfold p_inert in Hinert. destruct (0 <? f_he + f_n2) eqn:E.
      - apply Qltb_lt in E. lra.
      - discriminate. }
    rewrite !(pydiv_ok _ _ Hsum). simpl.
    rewrite andb_true_r.
    destruct (pp_o2 <=? ambiant_pressure); simpl;
      destruct (add_o2 _ _ _); reflexivity.
  - simpl. rewrite andb_false_r.
    destruct (add_o2 _ _ _); reflexivity.
Qed.

(** [const_depth] on an open circuit: one call of [remove_o2] or [add_o2],
    then the loop over the tissues. *)
Lemma const_depth_open_circuit (pressure seg_time f_he f_n2 pp_o2 : Q)
    (self : Model.t) :
  pp_o2 <= 0 ->
  let ambiant_pressure := pressure + AMBIANT_PRESSURE_SURFACE in
  Model.const_depth pressure seg_time f_he f_n2 pp_o2 self
  = after_ox_tox
      (if pressure =? 0
       then remove_o2 (Model.ox_tox self) seg_time
       else add_o2 (Model.ox_tox self) seg_time
              ((ambiant_pressure - Model.pp_h2o self) * (1 - f_he - f_n2)))
      (if 0 <? seg_time
       then Model.for_tissues
              (Compartment.const_depth
                 ((ambiant_pressure - Model.pp_h2o self) * f_he)
                 ((ambiant_pressure - Model.pp_h2o self) * f_n2)
                 seg_time)
       else mret tt)
      self.
Proof.
  intros Hpp ambiant_pressure. apply Qltb_ge in Hpp.
  unfold Model.const_depth. run_monad. rewrite Hpp.
  fold ambiant_pressure.
  destruct (pressure =? 0); simpl;
    [destruct (remove_o2 _ _) | destruct (add_o2 _ _ _)]; reflexivity.
Qed.

Lemma pydiv_raises (a b : Q) (e : exn) :
  pydiv a b = inl e -> e = ZeroDivisionError.
Proof. unfold pydiv. destruct (b =? 0); congruence. Qed.

(** [asc_desc] either stops on a division by zero before anything is
    written, or makes one call of [add_o2] and then loops over the
    tissues. *)
Lemma asc_desc_shape (start finish rate f_he f_n2 pp_o2 : Q) (self : Model.t) :
  Model.asc_desc start finish rate f_he f_n2 pp_o2 self
  = (inl ZeroDivisionError, self)
  \/ exists seg_time pp_o2_inspired pp_he_inspired pp_n2_inspired rate_he rate_n2,
       Model.asc_desc start finish rate f_he f_n2 pp_o2 self
       = after_ox_tox
           (add_o2 (Model.ox_tox self) seg_time pp_o2_inspired)
           (Model.for_tissues
              (Compartment.asc_desc pp_he_inspired pp_n2_inspired
                 rate_he rate_n2 seg_time))
           self.
Proof.
  unfold Model.asc_desc. run_monad.
  destruct (pydiv (finish - start) (depth_to_pressure rate)) as [e|q] eqn:Hq.
  { apply pydiv_raises in Hq. subst. now left. }
  assert (Hshape : forall (c : result unit * Model.t),
             (exists seg_time pp_o2_inspired he n2 rhe rn2,
                 c = match add_o2 (Model.ox_tox self) seg_time pp_o2_inspired with
                     | inl e => (inl e, self)
                     | inr o =>
                         Model.for_tissues
                           (Compartment.asc_desc he n2 rhe rn2 seg_time)
                           (Model.set_ox_tox o self)
                     end) ->
             c = (inl ZeroDivisionError, self) \/
             exists seg_time pp_o2_inspired he n2 rhe rn2,
               c = match add_o2 (Model.ox_tox self) seg_time pp_o2_inspired with
                   | inl e => (inl e, self)
                   | inr o =>
                       Model.for_tissues
                         (Compartment.asc_desc he n2 rhe rn2 seg_time)
                         (Model.set_ox_tox o self)
                   end) by (intros c Hc; right; exact Hc).
  destruct (0 <? pp_o2).
  - destruct (0 <? f_he + f_n2); simpl.
    + repeat match goal with
             | |- context [match pydiv ?a ?b with _ => _ end] =>
                 let E := fresh "E" in
                 destruct (pydiv a b) eqn:E;
                 [apply pydiv_raises in E; subst; now left|]
             end.
      apply Hshape.
      match goal with
      | |- context [add_o2 ?o ?t ?p] =>
          exists t, p; destruct (add_o2 o t p);
          [exists 0, 0, 0, 0 | do 4 eexists]; reflexivity
      end.
    + apply Hshape.
      match goal with
      | |- context [add_o2 ?o ?t ?p] =>
          exists t, p; destruct (add_o2 o t p);
          [exists 0, 0, 0, 0 | do 4 eexists]; reflexivity
      end.
  - simpl. apply Hshape.
    match goal with
    | |- context [add_o2 ?o ?t ?p] =>
        exists t, p; destruct (add_o2 o t p);
          [exists 0, 0, 0, 0 | do 4 eexists]; reflexivity
    end.
Qed.




(** C2 (as amended).  On a closed circuit [const_depth] passes to the
    compartments, when f_he + f_n2 > 0, the inspired pressures
    p_inert * f_he / (f_he + f_n2) and p_inert * f_n2 / (f_he + f_n2) with
    p_inert = max (0, P_amb - pp_o2 - pp_h2o), and 0 and 0 otherwise; it
    passes to the OxTox the setpoint pp_o2 if pp_o2 <= P_amb and p_inert > 0
    and f_he + f_n2 > 0, and P_amb - pp_h2o otherwise. *)
Theorem const_depth_closed_circuit_gas (pressure seg_time f_he f_n2 pp_o2 : Q)
    (self : Model.t) (Hpp : 0 < pp_o2) :
  let ambiant_pressure := pressure + AMBIANT_PRESSURE_SURFACE in
  let p_inert := spec_p_inert ambiant_pressure pp_o2 (Model.pp_h2o self) in
  exists pp_he_inspired pp_n2_inspired pp_o2_inspired,
    Model.const_depth pressure seg_time f_he f_n2 pp_o2 self
    = after_ox_tox
        (add_o2 (Model.ox_tox self) seg_time pp_o2_inspired)
        (if 0 <? seg_time
         then Model.for_tissues
                (Compartment.const_depth pp_he_inspired pp_n2_inspired seg_time)
         else mret tt)
        self /\
    (0 < f_he + f_n2 ->
     pp_he_inspired == p_inert * f_he / (f_he + f_n2) /\
     pp_n2_inspired == p_inert * f_n2 / (f_he + f_n2)) /\
    (f_he + f_n2 <= 0 -> pp_he_inspired = 0 /\ pp_n2_inspired = 0) /\
    pp_o2_inspired
    = (if (pp_o2 <=? ambiant_pressure) && (0 <? p_inert) && (0 <? f_he + f_n2)
       then pp_o2 else ambiant_pressure - Model.pp_h2o self).
Proof.
  intros ambiant_pressure p_inert.
  do 3 eexists. split; [apply (const_depth_closed_circuit _ _ _ _ _ _ Hpp)|].
  fold ambiant_pressure. unfold p_inert, spec_p_inert.
  set (raw := ambiant_pressure - pp_o2 - Model.pp_h2o self).
  destruct (0 <? f_he + f_n2) eqn:Hsum.
  - apply Qltb_lt in Hsum.
    destruct (0 <? raw) eqn:Hraw.
    + assert (Hneg : (raw <? 0) = false) by (apply Qltb_lt in Hraw; apply Qltb_ge; lra).
      rewrite Hneg, Hraw. rewrite !andb_true_r.
      split; [intros _; split; reflexivity|]. split; [intros; lra | reflexivity].
    + apply Qltb_ge in Hraw.
      split; [|split; [intros; lra|]].
      * intros _. destruct (raw <? 0) eqn:Hneg.
        -- split; unfold Qdiv; ring.
        -- apply Qltb_ge in Hneg. assert (Hz : raw == 0) by lra.
           split; rewrite Hz; unfold Qdiv; ring.
      * destruct (raw <? 0) eqn:Hneg.
        -- rewrite andb_false_r. simpl. now rewrite andb_false_r.
        -- apply Qltb_ge in Hneg.
           assert (Hz : (0 <? raw) = false) by (apply Qltb_ge; lra).
           rewrite Hz, !andb_false_r. reflexivity.
  - assert (Hz : (0 <? 0) = false) by reflexivity. rewrite Hz.
    apply Qltb_ge in Hsum.
    split; [intros; lra|]. split; [intros; split; reflexivity|].
    now rewrite !andb_false_r.
Qed.

(** C4 (as amended).  [asc_desc] with a rate of 0 raises
    [ZeroDivisionError] and leaves the model as it was. *)
Theorem asc_desc_zero_rate (start finish rate f_he f_n2 pp_o2 : Q)
    (self : Model.t) (Hrate : rate == 0) :
  Model.asc_desc start finish rate f_he f_n2 pp_o2 self
  = (inl ZeroDivisionError, self).
Proof.
  unfold Model.asc_desc. run_monad.
  rewrite pydiv_zero; [reflexivity|].
  unfold depth_to_pressure. rewrite Hrate. ring.
Qed.


End Segments.


(** A trimix diluent at 2 bar with a setpoint of 1.3 bar. *)
Lemma const_depth_closed_circuit_gas_witness :
  0 < 1.3 /\
  exists pp_he_inspired pp_n2_inspired : Q,
    pp_he_inspired
    == spec_p_inert (2 + 1.01325) 1.3 0.0627 * 0.3 / (0.3 + 0.4) /\
    pp_n2_inspired
    == spec_p_inert (2 + 1.01325) 1.3 0.0627 * 0.4 / (0.3 + 0.4).
Proof.
  split; [reflexivity|].
  destruct (@const_depth_closed_circuit_gas recording_env 2 600 0.3 0.4 1.3
              fresh_model) as (he & n2 & po & _ & Hgas & _); [reflexivity|].
  exists he, n2. apply Hgas. reflexivity.
Defined.

(** C2, the claim as stated fails: with a diluent of pure oxygen
    (f_he = f_n2 = 0) at 2 bar and a setpoint of 1.3 bar, the setpoint is
    below the ambient pressure and max (0, P_amb - pp_o2 - pp_h2o) is
    positive, yet the OxTox receives P_amb - pp_h2o and not the setpoint. *)
Lemma const_depth_pure_oxygen_diluent :
  Model.ox_tox
    (snd (@Model.const_depth recording_env 2 600 0 0 1.3 fresh_model))
  = [AddO2 600 (2 + 1.01325 - 0.0627)] /\
  1.3 <= 2 + 1.01325 /\
  0 < spec_p_inert (2 + 1.01325) 1.3 0.0627 /\
  ~ 2 + 1.01325 - 0.0627 == 1.3.
Proof.
  vm_compute. repeat split; discriminate.
Qed.

(** A descent of the fresh model at a rate of 0. *)
Lemma asc_desc_zero_rate_witness :
  0 == 0 /\
  @Model.asc_desc recording_env 1 2 0 0 0.79 0 fresh_model
  = (inl ZeroDivisionError, fresh_model).
Proof.
  split; [reflexivity|].
  apply (@asc_desc_zero_rate recording_env 1 2 0 0 0.79 0 fresh_model).
  reflexivity.
Defined.

(** C4, the claim as stated fails: a descent from 1 to 2 bar at a rate of 0
    raises [ZeroDivisionError], which is not a [ModelStateException]. *)
Lemma asc_desc_at_rate_zero :
  @Model.asc_desc recording_env 1 2 0 0 0.79 0 fresh_model
  = (inl ZeroDivisionError, fresh_model) /\
  ZeroDivisionError <> ModelStateException.
Proof.
  split; [vm_compute; reflexivity | discriminate].
Qed.


(** ** Validation *)

Section Validation.
Context `{Env}.













(** Loading rows: every call returns, the pressures stay, a compartment
    that a call names has the k of its row, and any other compartment is as
    it was. *)
Lemma set_rows_loaded (calls : list (nat * Model.row)) :
  Forall good_call calls ->
  forall self,
    length (Model.tissues self) = Model.COMPS ->
    exists l',
      Model.set_rows calls self = (inr tt, Model.set_tissues l' self) /\
      Forall2 same_pp (Model.tissues self) l' /\
      forall i comp',
        l' !! i = Some comp' ->
        (i ∈ (fst <$> calls) -> loaded_k i comp') /\
        (i ∉ (fst <$> calls) -> Model.tissues self !! i = Some comp').
Proof.
  induction 1 as [|[i [[[[[h_he h_n2] a_he] b_he] a_n2] b_n2]] calls
                   [Hi Hcall] _ IH]; intros self Hlen.
  - exists (Model.tissues self). destruct self. simpl.
    split; [reflexivity|]. split.
    + apply Forall_Forall2_diag, Forall_forall. intros; split; reflexivity.
    + intros i comp' Hl. split; [intros Hin; inversion Hin | auto].
  - simpl. unfold mbind, M_mbind, M_bind, Model.on_tissue.
    destruct (lookup_lt_is_Some_2 (Model.tissues self) i) as [comp Hcomp];
      [lia|].
    rewrite Hcomp.
    destruct (Hcall comp) as (comp1 & -> & Hpp1 & Hk1).
    set (self1 := Model.set_tissues (<[i:=comp1]> (Model.tissues self)) self).
    destruct (IH self1) as (l' & Hrun & Hpp & Hl').
    { unfold self1. simpl. now rewrite length_insert. }
    exists l'. rewrite Hrun. split; [destruct self; reflexivity|]. split.
    + unfold self1 in Hpp. simpl in Hpp.
      apply Forall2_same_length_lookup. split.
      * apply Forall2_length in Hpp. now rewrite length_insert in Hpp.
      * intros j c c' Hc Hc'.
        destruct (Forall2_lookup_r _ _ _ _ _ Hpp Hc') as (c1 & Hc1 & Hsame).
        destruct (decide (j = i)) as [->|Hne].
        -- rewrite list_lookup_insert_eq in Hc1 by (eapply lookup_lt_Some, Hc).
           injection Hc1 as <-. rewrite Hcomp in Hc. injection Hc as <-.
           destruct Hpp1 as [? ?], Hsame as [? ?]. split; congruence.
        -- rewrite list_lookup_insert_ne in Hc1 by congruence.
           rewrite Hc in Hc1. injection Hc1 as <-. exact Hsame.
    + intros j comp' Hj. destruct (Hl' j comp' Hj) as [Hnew Hold].
      unfold self1 in Hold. simpl in Hold. split.
      * intros Hin. destruct (decide (j ∈ (fst <$> calls))) as [Hrest|Hrest];
          [now apply Hnew|].
        apply elem_of_cons in Hin as [->|Hin]; [|contradiction].
        specialize (Hold Hrest).
        rewrite list_lookup_insert_eq in Hold by (eapply lookup_lt_Some, Hcomp).
        injection Hold as <-. exact Hk1.
      * intros Hout. apply not_elem_of_cons in Hout as [Hne Hrest].
        specialize (Hold Hrest).
        now rewrite list_lookup_insert_ne in Hold by congruence.
Qed.

(** Every call that the three tables make is a good one, and each table
    names the compartments 0 to 15. *)
Lemma tables_good (table : string -> list (nat * Model.row)) :
  (BUHLMANN_VALUES = "1a" \/ BUHLMANN_VALUES = "1b")%string ->
  table = Model.ZHL16a \/ table = Model.ZHL16b \/ table = Model.ZHL16c ->
  Forall good_call (table BUHLMANN_VALUES) /\
  fst <$> table BUHLMANN_VALUES = seq 0 Model.COMPS.
Proof.
  intros Hbv Htable. unfold good_call, loaded_k.
  destruct Htable as [-> | [-> | ->]]; destruct Hbv as [-> | ->].
  all: split; [|reflexivity].
  all: repeat (apply Forall_cons; split); try apply Forall_nil_2.
  all: split; [unfold Model.COMPS; lia|].
  all: intros comp; eexists; split; [reflexivity|].
  all: split; [split; reflexivity|].
  all: eexists; split; [reflexivity|]; split; reflexivity.
Qed.






End Validation.


(** ** Cloning *)

Section Cloning.
Context `{Env}.
Variable h0 : Heap.heap.

Lemma frame_inv_refl : frame_inv h0 h0.
Proof.
  split; [intros l o Hl; exact Hl|]. split; [lia|].
  intros l o Hn Hl. apply lookup_lt_Some in Hl. lia.
Qed.

Lemma preserves_ret {A} (a : A) (post : A -> Prop) :
  post a -> preserves h0 (mret a) post.
Proof. intros Hp h Hi. split; [exact Hi|]. intros a' [= <-]. exact Hp. Qed.

Lemma preserves_raise {A} (e : exn) (post : A -> Prop) :
  preserves h0 (raise e) post.
Proof. intros h Hi. split; [exact Hi | discriminate]. Qed.

Lemma preserves_lift {A} (r : result A) (post : A -> Prop) :
  (forall a, r = inr a -> post a) -> preserves h0 (lift r) post.
Proof. intros Hp h Hi. split; [exact Hi | exact Hp]. Qed.

Lemma preserves_bind {A B} (c : M Heap.heap A) (f : A -> M Heap.heap B)
    (P : A -> Prop) (Q : B -> Prop) :
  preserves h0 c P -> (forall a, P a -> preserves h0 (f a) Q) ->
  preserves h0 (c ≫= f) Q.
Proof.
  intros Hc Hf h Hi. unfold mbind, M_mbind, M_bind.
  destruct (Hc h Hi) as [Hi' Hpost].
  destruct (c h) as [[e|a] h']; simpl in *.
  - split; [exact Hi' | discriminate].
  - apply (Hf a (Hpost a eq_refl) h' Hi').
Qed.

Lemma preserves_weaken {A} (c : M Heap.heap A) (P Q : A -> Prop) :
  preserves h0 c P -> (forall a, P a -> Q a) -> preserves h0 c Q.
Proof.
  intros Hc HPQ h Hi. destruct (Hc h Hi) as [Hi' Hpost].
  split; [exact Hi' | auto].
Qed.

Lemma preserves_new (o : Heap.obj) :
  Forall (fun r => (length h0 <= r)%nat) (Heap.refs o) ->
  preserves h0 (Heap.new o) (fun l => (length h0 <= l)%nat).
Proof.
  intros Ho h (Hext & Hlen & Hclosed). unfold Heap.new. simpl.
  split; [|intros a [= <-]; exact Hlen].
  split; [|split].
  - intros l o' Hl. apply lookup_app_l_Some, Hext, Hl.
  - rewrite length_app. lia.
  - intros l o' Hn Hl. apply lookup_app_Some in Hl as [Hl|[_ Hl]].
    + apply (Hclosed l o' Hn Hl).
    + destruct (l - length h)%nat; simpl in Hl; [|discriminate].
      injection Hl as <-. exact Ho.
Qed.

Lemma preserves_load (l : Heap.loc) :
  preserves h0 (Heap.load l)
    (fun o => (length h0 <= l)%nat ->
              Forall (fun r => (length h0 <= r)%nat) (Heap.refs o)).
Proof.
  intros h Hi. unfold Heap.load.
  destruct (h !! l) as [o|] eqn:Hl; simpl; (split; [exact Hi|]);
    [|discriminate].
  intros a [= <-] Hn. destruct Hi as (_ & _ & Hclosed).
  apply (Hclosed l o Hn Hl).
Qed.

Lemma preserves_store (l : Heap.loc) (o : Heap.obj) :
  (length h0 <= l)%nat ->
  Forall (fun r => (length h0 <= r)%nat) (Heap.refs o) ->
  preserves h0 (Heap.store l o) (fun _ => True).
Proof.
  intros Hn Ho h (Hext & Hlen & Hclosed). unfold Heap.store. simpl.
  split; [|auto]. split; [|split].
  - intros j o' Hj. rewrite list_lookup_insert_ne; [apply Hext, Hj|].
    apply lookup_lt_Some in Hj. lia.
  - rewrite length_insert. exact Hlen.
  - intros j o' Hj Hlook.
    apply list_lookup_insert_Some in Hlook as [(-> & <- & _)|[_ Hlook]].
    + exact Ho.
    + apply (Hclosed j o' Hj Hlook).
Qed.

Lemma preserves_load_model (l : Heap.loc) :
  preserves h0 (Heap.load_model l)
    (fun '(_, tl, ox, g, _, _) =>
       (length h0 <= l)%nat ->
       (length h0 <= tl)%nat /\ (length h0 <= ox)%nat /\ (length h0 <= g)%nat).
Proof.
  unfold Heap.load_model.
  eapply preserves_bind; [apply preserves_load|].
  intros o Ho. destruct o; try apply preserves_raise.
  apply preserves_ret. intros Hn. specialize (Ho Hn). simpl in Ho.
  apply Forall_cons in Ho as [? Ho]. apply Forall_cons in Ho as [? Ho].
  apply Forall_cons in Ho as [? _]. auto.
Qed.

Lemma preserves_load_list (l : Heap.loc) :
  preserves h0 (Heap.load_list l)
    (fun ls => (length h0 <= l)%nat ->
               Forall (fun r => (length h0 <= r)%nat) ls).
Proof.
  unfold Heap.load_list.
  eapply preserves_bind; [apply preserves_load|].
  intros o Ho. destruct o; try apply preserves_raise.
  apply preserves_ret. exact Ho.
Qed.

Lemma preserves_for_list {A B} (f : A -> M Heap.heap B) (P : B -> Prop)
    (l : list A) :
  (forall x, x ∈ l -> preserves h0 (f x) P) ->
  preserves h0 (Heap.for_list f l) (Forall P).
Proof.
  induction l as [|x l IH]; intros Hf; simpl.
  - apply preserves_ret. constructor.
  - eapply preserves_bind; [apply Hf; left|]. intros y Hy.
    eapply preserves_bind; [apply IH; intros x' Hx'; apply Hf; now right|].
    intros ys Hys. apply preserves_ret. now constructor.
Qed.

Lemma preserves_read_model (l : Heap.loc) :
  preserves h0 (Heap.read_model l) (fun _ => True).
Proof.
  intros h Hi. unfold Heap.read_model.
  destruct (Heap.view h l); simpl; split; auto.
Qed.

(** A method called through a reference into the new part of the store
    writes into the new part only. *)
Lemma preserves_write_model (l : Heap.loc) (v : Model.t) :
  (length h0 <= l)%nat -> preserves h0 (Heap.write_model l v) (fun _ => True).
Proof.
  intros Hn. unfold Heap.write_model.
  eapply preserves_bind; [apply preserves_load_model|].
  intros [[[[[u tl] ox] g] p] md] Hrefs.
  destruct (Hrefs Hn) as (Htl & Hox & Hg).
  eapply preserves_bind; [apply preserves_load_list|]. intros ls Hls.
  specialize (Hls Htl).
  eapply preserves_bind; [apply preserves_store; [exact Hox | constructor]|].
  intros _ _.
  eapply preserves_bind; [apply preserves_store; [exact Hg | constructor]|].
  intros _ _.
  eapply preserves_bind.
  - apply (preserves_for_list _ (fun _ => True)).
    intros [lc comp] Hin. apply preserves_store; [|constructor].
    apply elem_of_zip_l in Hin. rewrite Forall_forall in Hls. auto.
  - intros _ _. apply preserves_store; [exact Hn|]. simpl. auto.
Qed.

Lemma preserves_call {A} (l : Heap.loc) (method : M Model.t A) :
  (length h0 <= l)%nat -> preserves h0 (Heap.call l method) (fun _ => True).
Proof.
  intros Hn. unfold Heap.call.
  eapply preserves_bind; [apply preserves_read_model|]. intros v _.
  destruct (method v) as [r v'].
  eapply preserves_bind; [apply preserves_write_model, Hn|]. intros _ _.
  apply preserves_lift. auto.
Qed.

Lemma calls_frame_inv (l : Heap.loc) (methods : list (M Model.t unit))
    (h : Heap.heap) :
  (length h0 <= l)%nat -> frame_inv h0 h ->
  frame_inv h0 (Heap.calls l methods h).
Proof.
  intros Hn. revert h. unfold Heap.calls.
  induction methods as [|method methods IH]; intros h Hi; simpl.
  - exact Hi.
  - apply IH. apply (preserves_call l method Hn h Hi).
Qed.

(** The objects of a clone are new objects. *)
Lemma preserves_deepcopy (l : Heap.loc) :
  preserves h0 (Heap.deepcopy l) (fun l' => (length h0 <= l')%nat).
Proof.
  unfold Heap.deepcopy.
  eapply preserves_bind; [apply preserves_load|]. intros o _.
  destruct o; simpl; try apply preserves_raise;
    apply preserves_new; constructor.
Qed.

Lemma preserves_alloc_model (v : Model.t) :
  preserves h0 (Heap.alloc_model v) (fun l => (length h0 <= l)%nat).
Proof.
  unfold Heap.alloc_model.
  eapply preserves_bind; [apply preserves_new; constructor|]. intros ox Hox.
  eapply preserves_bind; [apply preserves_new; constructor|]. intros g Hg.
  eapply preserves_bind.
  - apply (preserves_for_list _ (fun l => (length h0 <= l)%nat)).
    intros comp _. apply preserves_new. constructor.
  - intros ts Hts.
    eapply preserves_bind; [apply preserves_new; exact Hts|]. intros tl Htl.
    apply preserves_new. simpl. auto.
Qed.

Lemma preserves_Model_new :
  preserves h0 Heap.Model_new (fun l => (length h0 <= l)%nat).
Proof.
  unfold Heap.Model_new.
  eapply preserves_bind; [apply (preserves_lift _ (fun _ => True)); auto|].
  intros v _. apply preserves_alloc_model.
Qed.

Lemma preserves_copy_tissue (self_tissues : list Heap.loc)
    (newobj : Heap.loc) (i : nat) :
  (length h0 <= newobj)%nat ->
  preserves h0 (Heap.copy_tissue self_tissues newobj i) (fun _ => True).
Proof.
  intros Hn. unfold Heap.copy_tissue.
  destruct (self_tissues !! i) as [lc|]; [|apply preserves_raise].
  eapply preserves_bind; [apply preserves_deepcopy|]. intros lc' Hlc'.
  eapply preserves_bind; [apply preserves_load_model|].
  intros [[[[[u tl] ox] g] p] md] Hrefs.
  destruct (Hrefs Hn) as (Htl & _ & _).
  eapply preserves_bind; [apply preserves_load_list|]. intros ls Hls.
  specialize (Hls Htl).
  destruct (decide (i < length ls)%nat); [|apply preserves_raise].
  apply preserves_store; [exact Htl|]. simpl.
  apply Forall_insert; assumption.
Qed.

Lemma preserves___deepcopy__ (self : Heap.loc) :
  preserves h0 (Heap.__deepcopy__ self) (fun clone => (length h0 <= clone)%nat).
Proof.
  unfold Heap.__deepcopy__.
  eapply preserves_bind; [apply preserves_Model_new|]. intros newobj Hn.
  eapply preserves_bind; [apply preserves_load_model|].
  intros [[[[[self_units self_tl] self_ox] self_g] self_p] self_md] _.
  eapply preserves_bind; [apply preserves_load_model|].
  intros [[[[[u1 tl1] ox1] g1] p1] md1] Hrefs.
  destruct (Hrefs Hn) as (? & ? & ?). clear Hrefs.
  eapply preserves_bind; [apply preserves_store; [exact Hn | simpl; auto]|].
  intros _ _.
  eapply preserves_bind; [apply preserves_deepcopy|]. intros ox' Hox'.
  eapply preserves_bind; [apply preserves_load_model|].
  intros [[[[[u2 tl2] ox2] g2] p2] md2] Hrefs.
  destruct (Hrefs Hn) as (? & ? & ?). clear Hrefs.
  eapply preserves_bind; [apply preserves_store; [exact Hn | simpl; auto]|].
  intros _ _.
  eapply preserves_bind; [apply preserves_deepcopy|]. intros g' Hg'.
  eapply preserves_bind; [apply preserves_load_model|].
  intros [[[[[u3 tl3] ox3] g3] p3] md3] Hrefs.
  destruct (Hrefs Hn) as (? & ? & ?). clear Hrefs.
  eapply preserves_bind; [apply preserves_store; [exact Hn | simpl; auto]|].
  intros _ _.
  eapply preserves_bind; [apply preserves_load_model|].
  intros [[[[[u4 tl4] ox4] g4] p4] md4] Hrefs.
  destruct (Hrefs Hn) as (? & ? & ?). clear Hrefs.
  eapply preserves_bind; [apply preserves_store; [exact Hn | simpl; auto]|].
  intros _ _.
  eapply preserves_bind; [apply preserves_load_list|]. intros self_tissues _.
  eapply preserves_bind.
  - apply (preserves_for_list _ (fun _ => True)).
    intros i _. apply preserves_copy_tissue, Hn.
  - intros _ _. apply preserves_ret. exact Hn.
Qed.

(** Reading a model needs only objects that the store keeps. *)
Lemma view_extends (h : Heap.heap) (l : Heap.loc) (v : Model.t) :
  extends h0 h -> Heap.view h0 l = Some v -> Heap.view h l = Some v.
Proof.
  intros Hext. unfold extends in Hext. unfold Heap.view.
  destruct (h0 !! l) as [[| | | |u tl ox g p md]|] eqn:Hl; try discriminate.
  rewrite (Hext _ _ Hl).
  destruct (h0 !! tl) as [[| | |ls|]|] eqn:Htl; try discriminate.
  destruct (h0 !! ox) as [[|o| | |]|] eqn:Hox; try discriminate.
  destruct (h0 !! g) as [[| |gr| |]|] eqn:Hg; try discriminate.
  rewrite (Hext _ _ Htl), (Hext _ _ Hox), (Hext _ _ Hg).
  destruct (mapM (Heap.view_compartment h0) ls) as [comps|] eqn:Hcomps;
    [|discriminate].
  intros Hv.
  assert (Hcomps' : mapM (Heap.view_compartment h) ls = Some comps).
  { apply mapM_Some in Hcomps. apply mapM_Some.
    eapply Forall2_impl; [exact Hcomps|].
    intros lc comp. unfold Heap.view_compartment.
    destruct (h0 !! lc) as [[comp'| | | |]|] eqn:Hlc; try discriminate.
    now rewrite (Hext _ _ Hlc). }
  now rewrite Hcomps'.
Qed.

End Cloning.

(** C9.  Let [clone] be the model that [__deepcopy__] returns for the model
    at [self].  Whatever methods are then called on [clone], in whatever
    number, and whether they return or raise, the model at [self] keeps the
    value it had: its units, its compartments with their pressures and
    coefficients, its OxTox, its gradient, its pp_h2o and its metadata. *)
Theorem clone_independence `{Env} (h : Heap.heap) (self : Heap.loc)
    (v : Model.t) (clone : Heap.loc) (h1 : Heap.heap)
    (methods : list (M Model.t unit)) :
  Heap.view h self = Some v ->
  Heap.__deepcopy__ self h = (inr clone, h1) ->
  Heap.view (Heap.calls clone methods h1) self = Some v.
Proof.
  intros Hv Hcopy.
  destruct (preserves___deepcopy__ h self h (frame_inv_refl h)) as [Hinv Hclone].
  rewrite Hcopy in Hinv, Hclone. simpl in Hinv, Hclone.
  specialize (Hclone clone eq_refl).
  destruct (calls_frame_inv h clone methods h1 Hclone Hinv) as (Hext & _).
  apply (view_extends h _ _ _ Hext Hv).
Qed.

(** The fresh model is cloned, and the clone dives, surfaces and is
    validated. *)
Lemma clone_independence_witness :
  Heap.view fresh_heap 19 = Some fresh_model /\
  Heap.__deepcopy__ 19 fresh_heap = (inr 39%nat, cloned_heap) /\
  Heap.view
    (Heap.calls 39
       [Model.const_depth 3 600 0 0.79 0;
        Model.asc_desc 3 0 (-0.15) 0 0.79 0;
        (Model.validate_model ;; mret tt)]
       cloned_heap) 19
  = Some fresh_model.
Proof.
  assert (Hview : Heap.view fresh_heap 19 = Some fresh_model)
    by (vm_compute; reflexivity).
  assert (Hcopy : Heap.__deepcopy__ 19 fresh_heap = (inr 39%nat, cloned_heap))
    by (vm_compute; reflexivity).
  split; [exact Hview|]. split; [exact Hcopy|].
  exact (@clone_independence recording_env fresh_heap 19 fresh_model 39
           cloned_heap _ Hview Hcopy).
Defined.

(** The clone is a copy, and a dive of the clone is a dive of the clone
    only: after ten minutes at 3 bar the compartments of the clone have
    changed and the original model is the fresh model still. *)
Example clone_then_dive :
  let h2 := Heap.calls 39 [Model.const_depth 3 600 0 0.79 0] cloned_heap in
  Heap.view cloned_heap 39 = Some fresh_model /\
  Heap.view h2 19 = Some fresh_model /\
  Model.tissues <$> Heap.view h2 39 <> Some (Model.tissues fresh_model) /\
  Model.ox_tox <$> Heap.view h2 39
  = Some [AddO2 600 ((3 + 1.01325 - 0.0627) * (1 - 0 - 0.79))].
Proof.
  vm_compute. repeat split. discriminate.
Qed.

(** * Further properties of the model *)

(** ** The queries *)

Section MoreQueries.
Context `{Env}.

(** X1.  [m_value] returns the greatest of 0 and the supersaturation ratios
    of the compartments at the absolute pressure [pressure] plus surface
    pressure; it is never negative, and it is 0 for a model without
    compartments. *)
Theorem m_value_greatest (pressure : Q) (self : Model.t) :
  greatest_of (Model.m_value pressure self)
    (0 :: map (Compartment.get_mv (pressure + AMBIANT_PRESSURE_SURFACE))
              (Model.tissues self)) /\
  0 <= Model.m_value pressure self /\
  Model.m_value pressure (Model.set_tissues [] self) = 0.
Proof.
  pose proof (fold_keep_greater
                (Compartment.get_mv (pressure + AMBIANT_PRESSURE_SURFACE))
                (Model.tissues self) 0) as Hmax.
  split; [exact Hmax|]. split.
  - apply Hmax. left.
  - reflexivity.
Qed.

(** X2.  The two ceilings agree: once some compartment tolerates more than
    the surface pressure, [ceiling] is [ceiling_in_pabs] less the surface
    pressure, in metres; as long as none does, [ceiling] is 0. *)
Theorem ceiling_from_ceiling_in_pabs (self : Model.t)
    (Hsurface : 0 <= AMBIANT_PRESSURE_SURFACE) :
  let max_amb := Compartment.get_max_amb (Gradient.gf (Model.gradient self)) in
  (Exists (fun comp => AMBIANT_PRESSURE_SURFACE < max_amb comp)
          (Model.tissues self) ->
   Model.ceiling self
   == pressure_to_depth (Model.ceiling_in_pabs self - AMBIANT_PRESSURE_SURFACE))
  /\
  (Forall (fun comp => max_amb comp <= AMBIANT_PRESSURE_SURFACE)
          (Model.tissues self) ->
   Model.ceiling self == 0).
Proof.
  intros max_amb.
  assert (Hp : exists p,
             Model.ceiling self = pressure_to_depth p /\
             greatest_of p
               (0 :: map (fun comp => max_amb comp - AMBIANT_PRESSURE_SURFACE)
                         (Model.tissues self))).
  { eexists. split; [reflexivity|].
    apply (fold_keep_greater
             (fun comp => max_amb comp - AMBIANT_PRESSURE_SURFACE)). }
  assert (Hq : exists q,
             Model.ceiling_in_pabs self = q /\
             greatest_of q (0 :: map max_amb (Model.tissues self))).
  { eexists. split; [reflexivity|]. apply (fold_keep_greater max_amb). }
  destruct Hp as (p & -> & Hp_in & Hp_max).
  destruct Hq as (q & -> & Hq_in & Hq_max).
  unfold pressure_to_depth. split.
  - intros Habove. apply Exists_exists in Habove as (comp & Hin & Hgt).
    assert (Hp_ge : max_amb comp - AMBIANT_PRESSURE_SURFACE <= p).
    { apply Hp_max. right. apply list_elem_of_fmap. eauto. }
    assert (Hq_ge : max_amb comp <= q).
    { apply Hq_max. right. apply list_elem_of_fmap. eauto. }
    apply elem_of_cons in Hp_in as [->|Hp_in]; [lra|].
    apply elem_of_cons in Hq_in as [->|Hq_in]; [lra|].
    apply list_elem_of_fmap in Hp_in as (cp & -> & Hcp).
    apply list_elem_of_fmap in Hq_in as (cq & -> & Hcq).
    assert (Hpq : max_amb cq - AMBIANT_PRESSURE_SURFACE
                  <= max_amb cp - AMBIANT_PRESSURE_SURFACE).
    { apply Hp_max. right. apply list_elem_of_fmap. eauto. }
    assert (Hqp : max_amb cp <= max_amb cq).
    { apply Hq_max. right. apply list_elem_of_fmap. eauto. }
    assert (Heq : max_amb cp - AMBIANT_PRESSURE_SURFACE
                  == max_amb cq - AMBIANT_PRESSURE_SURFACE) by lra.
    now rewrite Heq.
  - intros Hbelow.
    assert (Hp0 : p == 0).
    { assert (0 <= p) by (apply Hp_max; left).
      apply elem_of_cons in Hp_in as [->|Hp_in]; [reflexivity|].
      apply list_elem_of_fmap in Hp_in as (cp & -> & Hcp).
      rewrite Forall_forall in Hbelow. specialize (Hbelow cp Hcp). lra. }
    rewrite Hp0. unfold Qdiv. ring.
Qed.

(** X3.  The controlling compartment sets the ceiling: when some
    compartment of a model of 16 tolerates more than the surface pressure,
    [ceiling] is the tolerated pressure of the compartment that
    [control_compartment] names, less the surface pressure, in metres. *)
Theorem ceiling_of_control_compartment (self : Model.t)
    (Hlen : length (Model.tissues self) = Model.COMPS)
    (Habove : Exists (fun comp =>
                        AMBIANT_PRESSURE_SURFACE
                        < Compartment.get_max_amb
                            (Gradient.gf (Model.gradient self)) comp)
                     (Model.tissues self)) :
  exists k comp,
    Model.control_compartment self = inr (k + 1)%nat /\
    Model.tissues self !! k = Some comp /\
    Model.ceiling self
    == pressure_to_depth
         (Compartment.get_max_amb (Gradient.gf (Model.gradient self)) comp
          - AMBIANT_PRESSURE_SURFACE).
Proof.
  set (max_amb := Compartment.get_max_amb (Gradient.gf (Model.gradient self)))
    in *.
  destruct (control_loop_inv self Model.COMPS 0 0 0) as (k & mp & Hrun & Hinv).
  { lia. }
  { left. split; [reflexivity|]. split; [reflexivity|]. intros; lia. }
  apply Exists_exists in Habove as (comp0 & Hin0 & Hgt0).
  apply list_elem_of_lookup in Hin0 as [j0 Hj0].
  assert (Hj0lt : (j0 < Model.COMPS)%nat).
  { rewrite <- Hlen. eapply lookup_lt_Some, Hj0. }
  simpl in Hinv.
  destruct Hinv as [(_ & _ & Hle)|(Hlt & Hpos & (comp & Hcomp & Hmp) & Hle)].
  { specialize (Hle j0 comp0 Hj0lt Hj0). fold max_amb in Hle. lra. }
  exists k, comp. unfold Model.control_compartment. rewrite Hrun.
  split; [reflexivity|]. split; [exact Hcomp|].
  assert (Hp : exists p,
             Model.ceiling self = pressure_to_depth p /\
             greatest_of p
               (0 :: map (fun comp => max_amb comp - AMBIANT_PRESSURE_SURFACE)
                         (Model.tissues self))).
  { eexists. split; [reflexivity|].
    apply (fold_keep_greater
             (fun comp => max_amb comp - AMBIANT_PRESSURE_SURFACE)). }
  destruct Hp as (p & -> & Hp_in & Hp_max).
  unfold pressure_to_depth. fold max_amb in Hmp, Hle. subst mp.
  assert (Hge : max_amb comp - AMBIANT_PRESSURE_SURFACE <= p).
  { apply Hp_max. right. apply list_elem_of_fmap. exists comp.
    split; [reflexivity|]. apply list_elem_of_lookup. eauto. }
  assert (Hle' : p <= max_amb comp - AMBIANT_PRESSURE_SURFACE).
  { apply elem_of_cons in Hp_in as [->|Hp_in]; [lra|].
    apply list_elem_of_fmap in Hp_in as (cp & -> & Hcp).
    apply list_elem_of_lookup in Hcp as [jp Hjp].
    assert (Hjplt : (jp < Model.COMPS)%nat).
    { rewrite <- Hlen. eapply lookup_lt_Some, Hjp. }
    destruct (Hle jp cp Hjplt Hjp) as [Hcp_le _]. lra. }
  assert (Heq : p == max_amb comp - AMBIANT_PRESSURE_SURFACE) by lra.
  now rewrite Heq.
Qed.

End MoreQueries.

(** After the dive the second compartment tolerates more than the surface
    pressure. *)
Lemma second_compartment_of_dived_model :
  Exists (fun comp =>
            @AMBIANT_PRESSURE_SURFACE recording_env
            < Compartment.get_max_amb
                (Gradient.gf (Model.gradient dived_model)) comp)
         (Model.tissues dived_model).
Proof. constructor 2. constructor 1. vm_compute. reflexivity. Qed.

(** The ceilings of the fresh model after the dive. *)
Lemma ceiling_from_ceiling_in_pabs_witness :
  0 <= @AMBIANT_PRESSURE_SURFACE recording_env /\
  Model.ceiling dived_model
  == @pressure_to_depth recording_env
       (Model.ceiling_in_pabs dived_model
        - @AMBIANT_PRESSURE_SURFACE recording_env).
Proof.
  assert (Hsurface : 0 <= @AMBIANT_PRESSURE_SURFACE recording_env)
    by discriminate.
  split; [exact Hsurface|].
  exact (proj1 (@ceiling_from_ceiling_in_pabs recording_env dived_model
                  Hsurface)
           second_compartment_of_dived_model).
Defined.

(** The controlling compartment of the fresh model after the dive. *)
Lemma ceiling_of_control_compartment_witness :
  length (Model.tissues dived_model) = Model.COMPS /\
  exists k comp,
    Model.control_compartment dived_model = inr (k + 1)%nat /\
    Model.tissues dived_model !! k = Some comp.
Proof.
  split; [vm_compute; reflexivity|].
  destruct (@ceiling_of_control_compartment recording_env dived_model)
    as (k & comp & Hk & Hcomp & _);
    [vm_compute; reflexivity | exact second_compartment_of_dived_model|].
  exists k, comp. split; assumption.
Defined.

(** ** The methods that load and check the coefficients *)

Section Coefficients.
Context `{Env}.

Lemma same_pp_refl (comp : Compartment.t) : same_pp comp comp.
Proof. split; reflexivity. Qed.

Lemma same_pp_trans (c1 c2 c3 : Compartment.t) :
  same_pp c1 c2 -> same_pp c2 c3 -> same_pp c1 c3.
Proof. intros [? ?] [? ?]. split; congruence. Qed.

Lemma Forall2_same_pp_refl (l : list Compartment.t) : Forall2 same_pp l l.
Proof.
  apply Forall_Forall2_diag, Forall_forall. intros; apply same_pp_refl.
Qed.

Lemma set_compartment_time_constants_same_pp
    (h_he h_n2 a_he b_he a_n2 b_n2 : Q) (comp comp' : Compartment.t) :
  Compartment.set_compartment_time_constants h_he h_n2 a_he b_he a_n2 b_n2 comp
  = inr comp' ->
  same_pp comp comp'.
Proof.
  unfold Compartment.set_compartment_time_constants.
  destruct (_ || _); [discriminate|]. intros [= <-]. split; reflexivity.
Qed.

(** Whatever the calls and whatever the outcome, loading rows replaces
    compartments in place: the model keeps its number of compartments, their
    pressures and every other field, and a compartment that no call names
    is as it was. *)
Lemma set_rows_frame (calls : list (nat * Model.row)) :
  forall self,
  exists l',
    snd (Model.set_rows calls self) = Model.set_tissues l' self /\
    Forall2 same_pp (Model.tissues self) l' /\
    forall i, i ∉ (fst <$> calls) -> l' !! i = Model.tissues self !! i.
Proof.
  induction calls as [|[i [[[[[h_he h_n2] a_he] b_he] a_n2] b_n2]] calls IH];
    intros self.
  - exists (Model.tissues self). destruct self. simpl.
    split; [reflexivity|]. split; [apply Forall2_same_pp_refl | auto].
  - simpl. unfold mbind, M_mbind, M_bind, Model.on_tissue.
    assert (Hstop : exists l',
               self = Model.set_tissues l' self /\
               Forall2 same_pp (Model.tissues self) l' /\
               forall j, j ∉ (i :: (fst <$> calls)) ->
                         l' !! j = Model.tissues self !! j).
    { exists (Model.tissues self). destruct self. simpl.
      split; [reflexivity|]. split; [apply Forall2_same_pp_refl | auto]. }
    destruct (Model.tissues self !! i) as [comp|] eqn:Hcomp; [|exact Hstop].
    destruct (Compartment.set_compartment_time_constants _ _ _ _ _ _ comp)
      as [e|comp'] eqn:Hset; [exact Hstop|].
    apply set_compartment_time_constants_same_pp in Hset.
    set (self1 := Model.set_tissues (<[i:=comp']> (Model.tissues self)) self).
    destruct (IH self1) as (l' & Hrun & Hpp & Hout).
    exists l'. split; [|split].
    + destruct (Model.set_rows calls self1) as [[e|[]] self2];
        simpl in *; rewrite Hrun; destruct self; reflexivity.
    + unfold self1 in Hpp. simpl in Hpp.
      apply Forall2_same_length_lookup. split.
      * apply Forall2_length in Hpp. now rewrite length_insert in Hpp.
      * intros j c c' Hc Hc'.
        destruct (Forall2_lookup_r _ _ _ _ _ Hpp Hc') as (c1 & Hc1 & Hsame).
        destruct (decide (j = i)) as [->|Hne].
        -- rewrite list_lookup_insert_eq in Hc1 by (eapply lookup_lt_Some, Hc).
           injection Hc1 as <-. rewrite Hcomp in Hc. injection Hc as <-.
           eapply same_pp_trans; eassumption.
        -- rewrite list_lookup_insert_ne in Hc1 by congruence.
           rewrite Hc in Hc1. injection Hc1 as <-. exact Hsame.
    + intros j Hj. apply not_elem_of_cons in Hj as [Hne Hj].
      rewrite (Hout j Hj). unfold self1. simpl.
      now rewrite list_lookup_insert_ne by congruence.
Qed.

Lemma set_time_constants_frame (deco_model : option string) (self : Model.t) :
  exists l',
    snd (Model.set_time_constants deco_model self) = Model.set_tissues l' self /\
    Forall2 same_pp (Model.tissues self) l'.
Proof.
  unfold Model.set_time_constants.
  repeat match goal with
         | |- context [if ?b then _ else _] => destruct b
         end.
  1-3: match goal with
       | |- context [Model.set_rows ?calls ?s] =>
           destruct (set_rows_frame calls s) as (l' & ? & ? & _); eauto
       end.
  exists (Model.tissues self). destruct self. simpl.
  split; [reflexivity | apply Forall2_same_pp_refl].
Qed.

Lemma validate_model_frame (self : Model.t) :
  exists l',
    snd (Model.validate_model self) = Model.set_tissues l' self /\
    Forall2 same_pp (Model.tissues self) l'.
Proof.
  assert (Hsame : exists l',
             self = Model.set_tissues l' self /\
             Forall2 same_pp (Model.tissues self) l').
  { exists (Model.tissues self). destruct self.
    split; [reflexivity | apply Forall2_same_pp_refl]. }
  unfold Model.validate_model. run_monad.
  destruct (Model.validate_loop (Model.tissues self) false) as [e|[|]];
    simpl; try exact Hsame.
  destruct (set_time_constants_frame None self) as (l' & Hrun & Hpp).
  exists l'. split; [|exact Hpp].
  destruct (Model.set_time_constants None self) as [[e|[]] self1];
    simpl in *; exact Hrun.
Qed.

(** X4.  Loading and checking the coefficients never touches the gas loads:
    after [set_time_constants] and after [validate_model], whether they
    return or raise, every compartment has the pressures it had, and the
    units, the OxTox, the gradient, pp_h2o and the metadata are the same. *)
Theorem coefficients_methods_keep_pressures (deco_model : option string)
    (self : Model.t) :
  (exists l',
      snd (Model.set_time_constants deco_model self) = Model.set_tissues l' self /\
      Forall2 same_pp (Model.tissues self) l') /\
  (exists l',
      snd (Model.validate_model self) = Model.set_tissues l' self /\
      Forall2 same_pp (Model.tissues self) l').
Proof.
  split; [apply set_time_constants_frame | apply validate_model_frame].
Qed.

Lemma for_each_length (m : Compartment.t -> result Compartment.t)
    (l : list Compartment.t) :
  length (fst (Model.for_each m l)) = length l.
Proof.
  induction l as [|comp l IH]; simpl; [reflexivity|].
  destruct (m comp); simpl; [reflexivity|].
  destruct (Model.for_each m l). simpl in *. now rewrite IH.
Qed.

Lemma for_tissues_length (m : Compartment.t -> result Compartment.t)
    (self : Model.t) :
  length (Model.tissues (snd (Model.for_tissues m self)))
  = length (Model.tissues self).
Proof.
  unfold Model.for_tissues.
  pose proof (for_each_length m (Model.tissues self)) as Hlen.
  destruct (Model.for_each m (Model.tissues self)) as [l' [e|]]; exact Hlen.
Qed.

Lemma after_ox_tox_length (r : result OxTox) (rest : M Model.t unit)
    (self : Model.t) :
  (forall self0, length (Model.tissues (snd (rest self0)))
                 = length (Model.tissues self0)) ->
  length (Model.tissues (snd (after_ox_tox r rest self)))
  = length (Model.tissues self).
Proof.
  intros Hrest. destruct r as [e|o]; simpl; [reflexivity|]. now rewrite Hrest.
Qed.

(** X5.  No method of the class adds or removes a compartment: after a
    segment operation, [set_time_constants], [validate_model] or
    [init_gradient], whether it returns or raises, the model has as many
    compartments as before. *)
Theorem methods_keep_compartment_count (m : method) (self : Model.t) :
  length (Model.tissues (snd (run_method m self)))
  = length (Model.tissues self).
Proof.
  destruct m as [[pressure seg_time f_he f_n2 pp_o2
                 |start finish rate f_he f_n2 pp_o2]|deco_model| |]; simpl.
  - assert (Hrest : forall he n2 self0,
               length (Model.tissues
                         (snd ((if 0 <? seg_time
                                then Model.for_tissues
                                       (Compartment.const_depth he n2 seg_time)
                                else mret tt) self0)))
               = length (Model.tissues self0)).
    { intros he n2 self0. destruct (0 <? seg_time); [|reflexivity].
      apply for_tissues_length. }
    destruct (Qlt_le_dec 0 pp_o2) as [Hpp|Hpp].
    + rewrite (const_depth_closed_circuit _ _ _ _ _ _ Hpp).
      apply after_ox_tox_length, Hrest.
    + rewrite (const_depth_open_circuit _ _ _ _ _ _ Hpp).
      apply after_ox_tox_length, Hrest.
  - destruct (asc_desc_shape start finish rate f_he f_n2 pp_o2 self)
      as [->|(t & p & he & n2 & rhe & rn2 & ->)]; [reflexivity|].
    apply after_ox_tox_length. intros self0. apply for_tissues_length.
  - destruct (set_time_constants_frame deco_model self) as (l' & -> & Hpp).
    simpl. symmetry. eapply Forall2_length, Hpp.
  - destruct (validate_model_frame self) as (l' & Hrun & Hpp).
    unfold mbind, M_mbind, M_bind.
    destruct (Model.validate_model self) as [[e|b] self1]; simpl in *;
      rewrite Hrun; simpl; symmetry; eapply Forall2_length, Hpp.
  - reflexivity.
Qed.

Lemma validate_loop_healthy (l : list Compartment.t) (flag : bool) :
  Forall pp_valid l -> Forall no_zero l ->
  Model.validate_loop l flag = inr flag.
Proof.
  intros Hpp Hnz. revert flag.
  induction l as [|comp l IH]; intros flag; [reflexivity|].
  apply Forall_cons in Hpp as [[Hn2 Hhe] Hpp].
  apply Forall_cons in Hnz as [(H1 & H2 & H3 & H4 & H5 & H6) Hnz].
  simpl. apply Qleb_gt in Hn2. apply Qltb_ge in Hhe. rewrite Hn2, Hhe.
  assert (Hne : forall x, ~ 0 == x -> (0 =? x) = false).
  { intros x Hx. destruct (0 =? x) eqn:E; [|reflexivity].
    apply Qeqb_eq in E. contradiction. }
  rewrite !Hne by assumption. simpl. now apply IH.
Qed.

(** X6.  [validate_model] leaves a healthy model alone: when every
    compartment has valid pressures and no coefficient equal to 0, it
    returns True and the model is unchanged (no table is loaded). *)
Theorem validate_model_healthy (self : Model.t)
    (Hpp : Forall pp_valid (Model.tissues self))
    (Hnz : Forall no_zero (Model.tissues self)) :
  Model.validate_model self = (inr true, self).
Proof.
  unfold Model.validate_model. run_monad.
  now rewrite (validate_loop_healthy _ false Hpp Hnz).
Qed.

(** X7.  An unknown name is no error: [set_time_constants] for a model name
    that is none of ZHL16a, ZHL16b and ZHL16c returns and changes nothing;
    and when settings.BUHLMANN_VALUES is neither 1a nor 1b, compartment 0 is
    left as it is, whatever table is loaded. *)
Theorem set_time_constants_unknown_names (deco_model : option string)
    (self : Model.t) :
  let name := match deco_model with
              | None => DECO_MODEL
              | Some d => d
              end in
  (name <> "ZHL16a" -> name <> "ZHL16b" -> name <> "ZHL16c" ->
   Model.set_time_constants deco_model self = (inr tt, self))%string /\
  (BUHLMANN_VALUES <> "1a" -> BUHLMANN_VALUES <> "1b" ->
   Model.tissues (snd (Model.set_time_constants deco_model self)) !! 0%nat
   = Model.tissues self !! 0%nat)%string.
Proof.
  intros name. split.
  - intros Ha Hb Hc. unfold Model.set_time_constants. fold name.
    apply String.eqb_neq in Ha, Hb, Hc. now rewrite Ha, Hb, Hc.
  - intros H1a H1b. unfold Model.set_time_constants. fold name.
    assert (Hrows : forall table,
               table = Model.ZHL16a \/ table = Model.ZHL16b
               \/ table = Model.ZHL16c ->
               Model.tissues
                 (snd (Model.set_rows (table BUHLMANN_VALUES) self)) !! 0%nat
               = Model.tissues self !! 0%nat).
    { intros table Htable.
      destruct (set_rows_frame (table BUHLMANN_VALUES) self)
        as (l' & -> & _ & Hout).
      simpl. apply Hout.
      apply String.eqb_neq in H1a, H1b.
      destruct Htable as [-> | [-> | ->]];
        unfold Model.ZHL16a, Model.ZHL16b, Model.ZHL16c;
        rewrite H1a, H1b; simpl;
        intros Hin; repeat (apply elem_of_cons in Hin as [Hin|Hin];
                            [discriminate|]);
        inversion Hin. }
    repeat match goal with
           | |- context [if ?b then _ else _] => destruct b
           end; auto.
Qed.

(** Loading good calls into too short a list of compartments stops with an
    [IndexError]. *)
Lemma set_rows_index_error (calls : list (nat * Model.row)) :
  Forall good_call calls ->
  forall self,
    Exists (fun call => (length (Model.tissues self) <= fst call)%nat) calls ->
    fst (Model.set_rows calls self) = inl IndexError.
Proof.
  induction 1 as [|[i [[[[[h_he h_n2] a_he] b_he] a_n2] b_n2]] calls
                   [Hi Hcall] _ IH]; intros self Hshort.
  - inversion Hshort.
  - simpl. unfold mbind, M_mbind, M_bind, Model.on_tissue.
    destruct (Model.tissues self !! i) as [comp|] eqn:Hcomp; [|reflexivity].
    destruct (Hcall comp) as (comp' & -> & _).
    set (self1 := Model.set_tissues (<[i:=comp']> (Model.tissues self)) self).
    specialize (IH self1).
    destruct (Model.set_rows calls self1) as [[e|[]] self2]; simpl in *.
    + apply IH.
      apply Exists_cons in Hshort as [Hhd|Htl].
      * simpl in Hhd. apply lookup_lt_Some in Hcomp. lia.
      * eapply Exists_impl; [exact Htl|]. intros call Hc.
        now rewrite length_insert.
    + assert (Hex : Exists (fun call =>
                              (length (<[i:=comp']> (Model.tissues self))
                               <= fst call)%nat) calls).
      { apply Exists_cons in Hshort as [Hhd|Htl].
        - simpl in Hhd. apply lookup_lt_Some in Hcomp. lia.
        - eapply Exists_impl; [exact Htl|]. intros call Hc.
          now rewrite length_insert. }
      specialize (IH Hex). discriminate.
Qed.

(** X8.  Loading a table needs all 16 compartments: when
    settings.BUHLMANN_VALUES is 1a or 1b, [set_time_constants] for one of the
    three tables on a model with fewer than 16 compartments raises
    [IndexError]. *)
Theorem set_time_constants_index_error (deco_model : option string)
    (self : Model.t)
    (Hbv : (BUHLMANN_VALUES = "1a" \/ BUHLMANN_VALUES = "1b")%string)
    (Hname : let name := match deco_model with
                         | None => DECO_MODEL
                         | Some d => d
                         end in
             (name = "ZHL16a" \/ name = "ZHL16b" \/ name = "ZHL16c")%string)
    (Hshort : (length (Model.tissues self) < Model.COMPS)%nat) :
  fst (Model.set_time_constants deco_model self) = inl IndexError.
Proof.
  unfold Model.set_time_constants.
  assert (Hrows : forall table,
             table = Model.ZHL16a \/ table = Model.ZHL16b
             \/ table = Model.ZHL16c ->
             fst (Model.set_rows (table BUHLMANN_VALUES) self)
             = inl IndexError).
  { intros table Htable.
    destruct (tables_good table Hbv Htable) as [Hgood Hidx].
    apply (set_rows_index_error _ Hgood).
    apply Exists_exists.
    assert (Hin : (length (Model.tissues self))
                  ∈ (fst <$> table BUHLMANN_VALUES)).
    { rewrite Hidx. apply elem_of_seq. lia. }
    apply list_elem_of_fmap in Hin as (call & Hfst & Hin).
    exists call. split; [exact Hin | lia]. }
  simpl in Hname. destruct Hname as [-> | [-> | ->]]; simpl; auto.
Qed.

(** Loading rows reads nothing of the compartments it sets but their
    pressures: two models that have the same pressures and differ only in
    compartments that the calls name end up equal. *)
Lemma set_rows_agree (calls : list (nat * Model.row)) :
  forall l1 l2 l' u o g p md,
    Forall2 same_pp l1 l2 ->
    (forall j, j ∉ (fst <$> calls) -> l1 !! j = l2 !! j) ->
    Model.set_rows calls (Model.mk u l1 o g p md)
    = (inr tt, Model.mk u l' o g p md) ->
    Model.set_rows calls (Model.mk u l2 o g p md)
    = (inr tt, Model.mk u l' o g p md).
Proof.
  induction calls as [|[i [[[[[h_he h_n2] a_he] b_he] a_n2] b_n2]] calls IH];
    intros l1 l2 l' u o g p md Hpp Hsame Hrun.
  - simpl in *. injection Hrun as <-.
    assert (Heq : l2 = l1); [|now rewrite Heq].
    apply list_eq. intros j. symmetry. apply Hsame. apply not_elem_of_nil.
  - simpl in Hrun |- *. revert Hrun.
    unfold mbind, M_mbind, M_bind, Model.on_tissue. simpl.
    destruct (l1 !! i) as [c1|] eqn:Hc1; [|discriminate].
    destruct (Forall2_lookup_l _ _ _ _ _ Hpp Hc1) as (c2 & Hc2 & Hc12).
    rewrite Hc2.
    assert (Hset : Compartment.set_compartment_time_constants
                     h_he h_n2 a_he b_he a_n2 b_n2 c2
                   = Compartment.set_compartment_time_constants
                       h_he h_n2 a_he b_he a_n2 b_n2 c1).
    { unfold Compartment.set_compartment_time_constants.
      destruct Hc12 as [-> ->]. reflexivity. }
    rewrite Hset.
    destruct (Compartment.set_compartment_time_constants _ _ _ _ _ _ c1)
      as [e|c1'] eqn:Hrow; [discriminate|].
    unfold Model.set_tissues. simpl. apply IH.
    + apply Forall2_insert; [exact Hpp | apply same_pp_refl].
    + intros j Hj. destruct (decide (j = i)) as [->|Hne].
      * rewrite !list_lookup_insert_eq; [reflexivity| |].
        -- eapply lookup_lt_Some, Hc2.
        -- eapply lookup_lt_Some, Hc1.
      * rewrite !list_lookup_insert_ne by congruence.
        apply Hsame. simpl. intros Hin.
        apply elem_of_cons in Hin as [Hin|Hin]; [congruence | contradiction].
Qed.

(** X9.  Loading a table twice is loading it once: under a valid
    configuration and on a model of 16 compartments, [set_time_constants]
    returns, and a second call with the same argument returns and changes
    nothing more. *)
Theorem set_time_constants_idempotent (deco_model : option string)
    (self : Model.t) (Hset : settings_valid)
    (Hlen : length (Model.tissues self) = Model.COMPS) :
  exists self1,
    Model.set_time_constants deco_model self = (inr tt, self1) /\
    Model.set_time_constants deco_model self1 = (inr tt, self1).
Proof.
  destruct Hset as [_ Hbv]. unfold Model.set_time_constants.
  assert (Hrows : forall table,
             table = Model.ZHL16a \/ table = Model.ZHL16b
             \/ table = Model.ZHL16c ->
             exists self1,
               Model.set_rows (table BUHLMANN_VALUES) self = (inr tt, self1) /\
               Model.set_rows (table BUHLMANN_VALUES) self1 = (inr tt, self1)).
  { intros table Htable.
    destruct (tables_good table Hbv Htable) as [Hgood Hidx].
    destruct (set_rows_loaded _ Hgood self Hlen) as (l' & Hrun & Hpp & _).
    exists (Model.set_tissues l' self). split; [exact Hrun|].
    assert (Hout : forall j, j ∉ (fst <$> table BUHLMANN_VALUES) ->
                             (Model.COMPS <= j)%nat).
    { intros j Hj. rewrite Hidx in Hj.
      destruct (decide (j < Model.COMPS)%nat) as [Hlt|]; [|lia].
      exfalso. apply Hj, elem_of_seq. lia. }
    destruct self as [u l o g p md]. unfold Model.set_tissues in *.
    simpl in Hrun, Hpp, Hlen |- *.
    apply (set_rows_agree _ l l'); [exact Hpp| |exact Hrun].
    intros j Hj. apply Hout in Hj.
    apply Forall2_length in Hpp.
    rewrite !lookup_ge_None_2; [reflexivity| |]; lia. }
  repeat match goal with
         | |- context [if ?b then _ else _] => destruct b
         end; eauto.
Qed.

(** The calls of the three tables are good whatever
    settings.BUHLMANN_VALUES is. *)
Lemma tables_good_any (table : string -> list (nat * Model.row)) :
  table = Model.ZHL16a \/ table = Model.ZHL16b \/ table = Model.ZHL16c ->
  Forall good_call (table BUHLMANN_VALUES).
Proof.
  intros Htable. unfold good_call, loaded_k.
  destruct Htable as [-> | [-> | ->]];
    unfold Model.ZHL16a, Model.ZHL16b, Model.ZHL16c;
    destruct (BUHLMANN_VALUES =? "1a")%string;
    [| destruct (BUHLMANN_VALUES =? "1b")%string
     | | destruct (BUHLMANN_VALUES =? "1b")%string
     | | destruct (BUHLMANN_VALUES =? "1b")%string].
  all: repeat (apply Forall_cons; split); try apply Forall_nil_2.
  all: split; [unfold Model.COMPS; lia|].
  all: intros comp; eexists; split; [reflexivity|].
  all: split; [split; reflexivity|].
  all: eexists; split; [reflexivity|]; split; reflexivity.
Qed.

Lemma for_each_all (m : Compartment.t -> result Compartment.t)
    (f : Compartment.t -> Compartment.t) (l : list Compartment.t) :
  (forall comp, m comp = inr (f comp)) ->
  Model.for_each m l = (f <$> l, None).
Proof.
  intros Hm. induction l as [|comp l IH]; simpl; [reflexivity|].
  now rewrite Hm, IH.
Qed.

(** X10.  [Model()] returns whenever the surface saturation
    DEFAULT_AIR_F_INNERT_GAS * (AMBIANT_PRESSURE_SURFACE - pp_h2o) is
    positive, whatever the other settings are.  The new model has 16
    compartments, all without helium and with that nitrogen pressure, a new
    OxTox, the gradient of the configured factors, the water vapour
    pressure of the configured surface temperature, metric units and the
    metadata "(none)". *)
Theorem Model_init_result
    (Hsat : 0 < DEFAULT_AIR_F_INNERT_GAS
                * (AMBIANT_PRESSURE_SURFACE
                   - calculate_pp_h2o_surf SURFACE_TEMP)) :
  exists self,
    Model.__init__ = inr self /\
    length (Model.tissues self) = Model.COMPS /\
    Forall (fun comp =>
              Compartment.pp_he comp = 0 /\
              Compartment.pp_n2 comp
              = DEFAULT_AIR_F_INNERT_GAS
                * (AMBIANT_PRESSURE_SURFACE
                   - calculate_pp_h2o_surf SURFACE_TEMP))
           (Model.tissues self) /\
    Model.units self = "metric"%string /\
    Model.ox_tox self = OxTox_new /\
    Model.gradient self = Gradient.new GF_LOW GF_HIGH /\
    Model.pp_h2o self = calculate_pp_h2o_surf SURFACE_TEMP /\
    Model.metadata self = "(none)"%string.
Proof.
  unfold Model.__init__.
  set (pp_n2 := DEFAULT_AIR_F_INNERT_GAS * _) in *.
  set (self0 := Model.mk _ _ _ _ _ _).
  assert (Hload : exists l',
             Model.set_time_constants None self0
             = (inr tt, Model.set_tissues l' self0) /\
             length l' = Model.COMPS).
  { unfold Model.set_time_constants.
    assert (Hlen0 : length (Model.tissues self0) = Model.COMPS)
      by apply length_replicate.
    assert (Hrows : forall table,
               table = Model.ZHL16a \/ table = Model.ZHL16b
               \/ table = Model.ZHL16c ->
               exists l',
                 Model.set_rows (table BUHLMANN_VALUES) self0
                 = (inr tt, Model.set_tissues l' self0) /\
                 length l' = Model.COMPS).
    { intros table Htable.
      destruct (set_rows_loaded _ (tables_good_any table Htable) self0 Hlen0)
        as (l' & Hrun & Hpp & _).
      exists l'. split; [exact Hrun|].
      rewrite <- Hlen0. symmetry. eapply Forall2_length, Hpp. }
    repeat match goal with
           | |- context [if ?b then _ else _] => destruct b
           end; auto.
    exists (Model.tissues self0). split; [reflexivity | exact Hlen0]. }
  destruct Hload as (l' & Hload & Hlen').
  unfold mbind, M_mbind, M_bind. rewrite Hload.
  unfold Model.for_tissues.
  set (f := fun comp =>
              Compartment.mk (Compartment.h_he comp) (Compartment.h_n2 comp)
                (Compartment.k_he comp) (Compartment.k_n2 comp)
                (Compartment.a_he comp) (Compartment.b_he comp)
                (Compartment.a_n2 comp) (Compartment.b_n2 comp) 0 pp_n2).
  rewrite (for_each_all _ f).
  - eexists. split; [reflexivity|]. simpl.
    split; [now rewrite length_fmap|].
    split; [|repeat split].
    apply Forall_fmap, Forall_forall. intros comp _. split; reflexivity.
  - intros comp. unfold Compartment.set_pp.
    apply Qleb_gt in Hsat. rewrite Hsat. reflexivity.
Qed.




End Coefficients.

(** The fresh model is healthy. *)
Lemma validate_model_healthy_witness :
  Forall pp_valid (Model.tissues fresh_model) /\
  Forall no_zero (Model.tissues fresh_model) /\
  Model.validate_model fresh_model = (inr true, fresh_model).
Proof.
  assert (Hpp : Forall pp_valid (Model.tissues fresh_model)).
  { repeat constructor; discriminate. }
  assert (Hnz : Forall no_zero (Model.tissues fresh_model)).
  { repeat constructor; discriminate. }
  split; [exact Hpp|]. split; [exact Hnz|].
  exact (@validate_model_healthy recording_env fresh_model Hpp Hnz).
Defined.

(** The table "VPM" for the fresh model, and the table ZHL16b for a model
    with one compartment under the selector 1c. *)
Lemma set_time_constants_unknown_names_witness :
  ("VPM" <> "ZHL16a" /\ "VPM" <> "ZHL16b" /\ "VPM" <> "ZHL16c")%string /\
  @Model.set_time_constants recording_env (Some "VPM"%string) fresh_model
  = (inr tt, fresh_model) /\
  (@BUHLMANN_VALUES recording_env_1c <> "1a"
   /\ @BUHLMANN_VALUES recording_env_1c <> "1b")%string /\
  Model.tissues
    (snd (@Model.set_time_constants recording_env_1c (Some "ZHL16b"%string)
            (@Model.mk recording_env_1c "metric" [Compartment.new] []
               (Gradient.new 0.30 0.80) 0 ""))) !! 0%nat
  = Some Compartment.new.
Proof.
  split; [repeat split; discriminate|].
  split.
  { apply (proj1 (@set_time_constants_unknown_names recording_env
                    (Some "VPM"%string) fresh_model)); discriminate. }
  split; [split; discriminate|].
  apply (proj2 (@set_time_constants_unknown_names recording_env_1c
                  (Some "ZHL16b"%string)
                  (@Model.mk recording_env_1c "metric" [Compartment.new] []
                     (Gradient.new 0.30 0.80) 0 ""))); discriminate.
Defined.

(** Loading the configured table into the model with one compartment. *)
Lemma set_time_constants_index_error_witness :
  (length (Model.tissues short_model) < Model.COMPS)%nat /\
  fst (Model.set_time_constants None short_model) = inl IndexError.
Proof.
  assert (Hshort : (length (Model.tissues short_model) < Model.COMPS)%nat)
    by (vm_compute; lia).
  split; [exact Hshort|].
  apply (@set_time_constants_index_error recording_env None short_model);
    [right; reflexivity | right; right; reflexivity | exact Hshort].
Defined.

(** Loading ZHL16a into the fresh model, twice. *)
Lemma set_time_constants_idempotent_witness :
  @settings_valid recording_env /\
  length (Model.tissues fresh_model) = Model.COMPS /\
  exists self1,
    Model.set_time_constants (Some "ZHL16a"%string) fresh_model
    = (inr tt, self1) /\
    Model.set_time_constants (Some "ZHL16a"%string) self1 = (inr tt, self1).
Proof.
  assert (Hset : @settings_valid recording_env).
  { split; [right; right | right]; reflexivity. }
  assert (Hlen : length (Model.tissues fresh_model) = Model.COMPS)
    by (vm_compute; reflexivity).
  split; [exact Hset|]. split; [exact Hlen|].
  exact (@set_time_constants_idempotent recording_env (Some "ZHL16a"%string)
           fresh_model Hset Hlen).
Defined.

(** [Model()] under the default settings. *)
Lemma Model_init_result_witness :
  0 < 0.7902 * (1.01325 - 0.0627) /\
  exists self, @Model.__init__ recording_env = inr self /\
               length (Model.tissues self) = Model.COMPS.
Proof.
  split; [reflexivity|].
  destruct (@Model_init_result recording_env) as (self & Hinit & Hlen & _);
    [reflexivity|].
  exists self. split; assumption.
Defined.


(** ** Ascents and descents *)

Section MoreSegments.
Context `{Env}.

Lemma Qabs_quotient (a r : Q) : ~ r == 0 -> Qabs (a / r) * Qabs r == Qabs a.
Proof.
  intros Hr. rewrite <- Qabs_Qmult. apply Qabs_wd. field. exact Hr.
Qed.

Lemma quotient_same_sign (a r : Q) :
  (0 <= a /\ 0 < r) \/ (a <= 0 /\ r < 0) -> Qabs (a / r) == a / r.
Proof.
  intros Hs. apply Qabs_pos.
  destruct Hs as [[Ha Hr]|[Ha Hr]].
  - apply Qle_shift_div_l; [exact Hr | lra].
  - assert (Heq : a / r == (- a) / (- r)) by (field; lra).
    rewrite Heq. apply Qle_shift_div_l; lra.
Qed.

Lemma quotient_opposite_sign (a r : Q) :
  (0 <= a /\ r < 0) \/ (a <= 0 /\ 0 < r) -> Qabs (a / r) == - (a / r).
Proof.
  intros Hs. apply Qabs_neg.
  destruct Hs as [[Ha Hr]|[Ha Hr]].
  - assert (Heq : a / r == - (a / - r)) by (field; lra).
    rewrite Heq. assert (0 <= a / - r); [|lra].
    apply Qle_shift_div_l; lra.
  - apply Qle_shift_div_r; lra.
Qed.

(** [asc_desc] on an open circuit, for a rate other than 0. *)
Lemma asc_desc_open_circuit (start finish rate f_he f_n2 pp_o2 : Q)
    (self : Model.t) :
  pp_o2 <= 0 -> ~ depth_to_pressure rate == 0 ->
  let start_ambiant_pressure := start + AMBIANT_PRESSURE_SURFACE in
  let finish_ambiant_pressure := finish + AMBIANT_PRESSURE_SURFACE in
  let seg_time := Qabs ((finish - start) / depth_to_pressure rate) in
  Model.asc_desc start finish rate f_he f_n2 pp_o2 self
  = after_ox_tox
      (add_o2 (Model.ox_tox self) seg_time
         (((start_ambiant_pressure - finish_ambiant_pressure) / 2
           + finish_ambiant_pressure - Model.pp_h2o self)
          * (1 - f_he - f_n2)))
      (Model.for_tissues
         (Compartment.asc_desc
            ((start_ambiant_pressure - Model.pp_h2o self) * f_he)
            ((start_ambiant_pressure - Model.pp_h2o self) * f_n2)
            (depth_to_pressure rate * f_he) (depth_to_pressure rate * f_n2)
            seg_time))
      self.
Proof.
  intros Hpp Hrate start_amb finish_amb seg_time. apply Qltb_ge in Hpp.
  unfold Model.asc_desc. run_monad. rewrite (pydiv_ok _ _ Hrate), Hpp. simpl.
  destruct (add_o2 _ _ _); reflexivity.
Qed.

(** X12.  [asc_desc] on an open circuit, at a rate other than 0, charges the
    OxTox for the time |finish - start| / |rate in bar| at the mean of the
    oxygen pressures inspired at the start and at the finish.  The inert
    pressures that the compartments integrate start at the values inspired
    at the start pressure; they arrive at the values inspired at the finish
    pressure when the rate has the sign of the change of pressure, and move
    as far the other way when it has the opposite sign. *)
Theorem asc_desc_open_circuit_ramp (start finish rate f_he f_n2 pp_o2 : Q)
    (self : Model.t)
    (Hpp : pp_o2 <= 0) (Hrate : ~ depth_to_pressure rate == 0) :
  let inspired pressure fraction :=
    (pressure + AMBIANT_PRESSURE_SURFACE - Model.pp_h2o self) * fraction in
  exists seg_time pp_o2_avg he n2 rate_he rate_n2,
    Model.asc_desc start finish rate f_he f_n2 pp_o2 self
    = after_ox_tox
        (add_o2 (Model.ox_tox self) seg_time pp_o2_avg)
        (Model.for_tissues
           (Compartment.asc_desc he n2 rate_he rate_n2 seg_time))
        self /\
    0 <= seg_time /\
    seg_time * Qabs (depth_to_pressure rate) == Qabs (finish - start) /\
    pp_o2_avg == (inspired start (1 - f_he - f_n2)
                  + inspired finish (1 - f_he - f_n2)) / 2 /\
    he = inspired start f_he /\ n2 = inspired start f_n2 /\
    ((start <= finish /\ 0 < depth_to_pressure rate) \/
     (finish <= start /\ depth_to_pressure rate < 0) ->
     he + rate_he * seg_time == inspired finish f_he /\
     n2 + rate_n2 * seg_time == inspired finish f_n2) /\
    ((start <= finish /\ depth_to_pressure rate < 0) \/
     (finish <= start /\ 0 < depth_to_pressure rate) ->
     he + rate_he * seg_time == inspired (start - (finish - start)) f_he /\
     n2 + rate_n2 * seg_time == inspired (start - (finish - start)) f_n2).
Proof.
  intros inspired. do 6 eexists.
  split; [apply (asc_desc_open_circuit _ _ _ _ _ _ _ Hpp Hrate)|].
  split; [apply Qabs_nonneg|].
  split; [apply (Qabs_quotient _ _ Hrate)|].
  split; [unfold inspired; field|].
  split; [reflexivity|]. split; [reflexivity|].
  unfold inspired. split.
  - intros Hsign. rewrite quotient_same_sign by lra. split; field; exact Hrate.
  - intros Hsign. rewrite quotient_opposite_sign by lra.
    split; field; exact Hrate.
Qed.

(** [asc_desc] on a closed circuit with an inert diluent, between two
    different pressures and for a rate other than 0. *)
Lemma asc_desc_closed_circuit (start finish rate f_he f_n2 pp_o2 : Q)
    (self : Model.t) :
  0 < pp_o2 -> 0 < f_he + f_n2 ->
  ~ depth_to_pressure rate == 0 -> ~ finish == start ->
  let p_inert pressure :=
    spec_p_inert (pressure + AMBIANT_PRESSURE_SURFACE) pp_o2
      (Model.pp_h2o self) in
  let seg_time := Qabs ((finish - start) / depth_to_pressure rate) in
  let he := p_inert start * f_he / (f_he + f_n2) in
  let n2 := p_inert start * f_n2 / (f_he + f_n2) in
  Model.asc_desc start finish rate f_he f_n2 pp_o2 self
  = after_ox_tox
      (add_o2 (Model.ox_tox self) seg_time pp_o2)
      (Model.for_tissues
         (Compartment.asc_desc he n2
            ((p_inert finish * f_he / (f_he + f_n2) - he) / seg_time)
            ((p_inert finish * f_n2 / (f_he + f_n2) - n2) / seg_time)
            seg_time))
      self /\
  0 < seg_time.
Proof.
  intros Hpp Hsum Hrate Hdiff p_inert seg_time he n2.
  assert (Htime : 0 < seg_time).
  { assert (Hnn : 0 <= seg_time) by apply Qabs_nonneg.
    destruct (Qeq_dec seg_time 0) as [Hz|Hnz]; [|lra].
    exfalso. apply Hdiff.
    pose proof (Qabs_quotient (finish - start) _ Hrate) as Hq.
    fold seg_time in Hq. rewrite Hz in Hq.
    assert (Habs : Qabs (finish - start) == 0) by (rewrite <- Hq; ring).
    revert Habs. apply Qabs_case; intros; lra. }
  split; [|exact Htime].
  assert (Hsum' : ~ f_he + f_n2 == 0) by lra.
  assert (Htime' : ~ seg_time == 0) by lra.
  apply Qltb_lt in Hpp, Hsum.
  unfold Model.asc_desc. run_monad.
  rewrite (pydiv_ok _ _ Hrate), Hpp, Hsum. simpl.
  rewrite !(pydiv_ok _ _ Hsum'). simpl.
  fold seg_time. rewrite !(pydiv_ok _ _ Htime'). simpl.
  destruct (add_o2 _ _ _); reflexivity.
Qed.

(** X13.  [asc_desc] on a closed circuit with an inert diluent, between two
    different pressures and at a rate other than 0, charges the OxTox for
    the time |finish - start| / |rate in bar| at the setpoint.  The inert
    pressures that the compartments integrate start at the shares of helium
    and nitrogen in max (0, P_amb - pp_o2 - pp_h2o) at the start pressure,
    and they arrive at the shares at the finish pressure whatever the sign
    of the rate is. *)
Theorem asc_desc_closed_circuit_ramp (start finish rate f_he f_n2 pp_o2 : Q)
    (self : Model.t)
    (Hpp : 0 < pp_o2) (Hsum : 0 < f_he + f_n2)
    (Hrate : ~ depth_to_pressure rate == 0) (Hdiff : ~ finish == start) :
  let p_inert pressure :=
    spec_p_inert (pressure + AMBIANT_PRESSURE_SURFACE) pp_o2
      (Model.pp_h2o self) in
  exists seg_time he n2 rate_he rate_n2,
    Model.asc_desc start finish rate f_he f_n2 pp_o2 self
    = after_ox_tox
        (add_o2 (Model.ox_tox self) seg_time pp_o2)
        (Model.for_tissues
           (Compartment.asc_desc he n2 rate_he rate_n2 seg_time))
        self /\
    0 < seg_time /\
    seg_time * Qabs (depth_to_pressure rate) == Qabs (finish - start) /\
    he = p_inert start * f_he / (f_he + f_n2) /\
    n2 = p_inert start * f_n2 / (f_he + f_n2) /\
    he + n2 == p_inert start /\
    he + rate_he * seg_time == p_inert finish * f_he / (f_he + f_n2) /\
    n2 + rate_n2 * seg_time == p_inert finish * f_n2 / (f_he + f_n2).
Proof.
  intros p_inert.
  destruct (asc_desc_closed_circuit start finish rate f_he f_n2 pp_o2 self
              Hpp Hsum Hrate Hdiff) as [Hrun Htime].
  do 5 eexists. split; [exact Hrun|].
  split; [exact Htime|].
  split; [apply (Qabs_quotient _ _ Hrate)|].
  split; [reflexivity|]. split; [reflexivity|].
  unfold p_inert.
  set (seg_time := Qabs ((finish - start) / depth_to_pressure rate)) in *.
  clearbody seg_time.
  assert (Htime' : ~ seg_time == 0) by lra.
  assert (Hsum' : ~ f_he + f_n2 == 0) by lra.
  split; [field; exact Hsum'|].
  split; field; split; assumption.
Qed.

(** X14.  [asc_desc] between two equal pressures never returns on a model
    that has compartments, and it changes no compartment.  On a closed
    circuit with an inert diluent, and at the rate 0, it raises
    [ZeroDivisionError] and leaves the model as it was. *)
Theorem asc_desc_zero_length (start finish rate f_he f_n2 pp_o2 : Q)
    (self : Model.t)
    (Hsame : finish == start) (Hcomps : Model.tissues self <> []) :
  match Model.asc_desc start finish rate f_he f_n2 pp_o2 self with
  | (inr _, _) => False
  | (inl e, self') =>
      Model.tissues self' = Model.tissues self /\
      ((0 < pp_o2 /\ 0 < f_he + f_n2) \/ depth_to_pressure rate == 0 ->
       e = ZeroDivisionError /\ self' = self)
  end.
Proof.
  unfold Model.asc_desc. run_monad.
  destruct (Qeq_dec (depth_to_pressure rate) 0) as [Hrate|Hrate].
  { rewrite (pydiv_zero _ _ Hrate). simpl. split; [reflexivity|].
    intros _. split; reflexivity. }
  rewrite (pydiv_ok _ _ Hrate). simpl.
  set (seg_time := Qabs ((finish - start) / depth_to_pressure rate)).
  assert (Htime : seg_time == 0).
  { unfold seg_time.
    assert (Hq : (finish - start) / depth_to_pressure rate == 0).
    { rewrite Hsame. field. exact Hrate. }
    rewrite Hq. reflexivity. }
  assert (Hloop : forall he n2 rhe rn2 o,
             Model.for_tissues (Compartment.asc_desc he n2 rhe rn2 seg_time)
               (Model.set_ox_tox o self)
             = (inl ModelStateException, Model.set_ox_tox o self)).
  { intros he n2 rhe rn2 o. unfold Model.for_tissues.
    rewrite (for_each_raises _ ModelStateException).
    - destruct self as [u [|comp l] ox g p md]; [contradiction|reflexivity].
    - intros comp. unfold Compartment.asc_desc.
      assert (Hle : (seg_time <=? 0) = true) by (apply Qleb_le; lra).
      now rewrite Hle. }
  destruct (0 <? pp_o2) eqn:Hpp.
  - destruct (0 <? f_he + f_n2) eqn:Hsum; simpl.
    + apply Qltb_lt in Hsum.
      assert (Hsum' : ~ f_he + f_n2 == 0) by lra.
      rewrite !(pydiv_ok _ _ Hsum'). simpl.
      rewrite (pydiv_zero _ _ Htime). simpl.
      split; [reflexivity|]. intros _. split; reflexivity.
    + destruct (add_o2 _ _ _) as [e|o]; simpl.
      * split; [reflexivity|]. intros [[_ Hs]|Hr]; [|contradiction].
        apply Qltb_lt in Hs. congruence.
      * rewrite Hloop. split; [destruct self; reflexivity|].
        intros [[_ Hs]|Hr]; [|contradiction].
        apply Qltb_lt in Hs. congruence.
  - simpl. destruct (add_o2 _ _ _) as [e|o]; simpl.
    + split; [reflexivity|]. intros [[Hp _]|Hr]; [|contradiction].
      apply Qltb_lt in Hp. congruence.
    + rewrite Hloop. split; [destruct self; reflexivity|].
      intros [[Hp _]|Hr]; [|contradiction].
      apply Qltb_lt in Hp. congruence.
Qed.

End MoreSegments.

(** A descent of the fresh model from the surface to 3 bar on air, at
    2 m per unit of time. *)
Lemma asc_desc_open_circuit_ramp_witness :
  0 <= 0 /\ ~ @depth_to_pressure recording_env 2 == 0 /\
  exists seg_time,
    0 <= seg_time /\
    seg_time * Qabs (@depth_to_pressure recording_env 2) == Qabs (3 - 0).
Proof.
  assert (Hpp : 0 <= 0) by discriminate.
  assert (Hrate : ~ @depth_to_pressure recording_env 2 == 0) by discriminate.
  split; [exact Hpp|]. split; [exact Hrate|].
  destruct (@asc_desc_open_circuit_ramp recording_env 0 3 2 0 0.79 0
              fresh_model Hpp Hrate)
    as (seg_time & _ & _ & _ & _ & _ & _ & Hnn & Htime & _).
  exists seg_time. split; assumption.
Defined.

(** The same descent on a closed circuit with the setpoint 1.3 bar. *)
Lemma asc_desc_closed_circuit_ramp_witness :
  0 < 1.3 /\ 0 < 0 + 0.79 /\ ~ @depth_to_pressure recording_env 2 == 0 /\
  ~ 3 == 0 /\
  exists seg_time,
    0 < seg_time /\
    seg_time * Qabs (@depth_to_pressure recording_env 2) == Qabs (3 - 0).
Proof.
  assert (Hpp : 0 < 1.3) by reflexivity.
  assert (Hsum : 0 < 0 + 0.79) by reflexivity.
  assert (Hrate : ~ @depth_to_pressure recording_env 2 == 0) by discriminate.
  assert (Hdiff : ~ 3 == 0) by discriminate.
  split; [exact Hpp|]. split; [exact Hsum|]. split; [exact Hrate|].
  split; [exact Hdiff|].
  destruct (@asc_desc_closed_circuit_ramp recording_env 0 3 2 0 0.79 1.3
              fresh_model Hpp Hsum Hrate Hdiff)
    as (seg_time & _ & _ & _ & _ & _ & Hpos & Htime & _).
  exists seg_time. split; assumption.
Defined.

(** An ascent of the fresh model from 1 bar to 1 bar. *)
Lemma asc_desc_zero_length_witness :
  1 == 1 /\ Model.tissues fresh_model <> [] /\
  forall u, fst (Model.asc_desc 1 1 2 0 0.79 0 fresh_model) <> inr u.
Proof.
  assert (Hsame : 1 == 1) by reflexivity.
  assert (Hcomps : Model.tissues fresh_model <> []) by discriminate.
  split; [exact Hsame|]. split; [exact Hcomps|].
  pose proof (@asc_desc_zero_length recording_env 1 1 2 0 0.79 0 fresh_model
                Hsame Hcomps) as Hrun.
  destruct (Model.asc_desc 1 1 2 0 0.79 0 fresh_model) as [[e|u'] self'].
  - discriminate.
  - contradiction.
Defined.

(** ** Segments that cannot fail half-way *)

Section AllOrNothing.
Context `{Env}.

Lemma for_tissues_returns (method : Compartment.t -> result Compartment.t)
    (self : Model.t) :
  (forall comp, exists comp', method comp = inr comp') ->
  exists self', Model.for_tissues method self = (inr tt, self').
Proof.
  intros Hm. unfold Model.for_tissues.
  destruct (for_each_returns method (Model.tissues self) Hm) as (l' & -> & _).
  eauto.
Qed.

Lemma after_ox_tox_all_or_nothing (r : result OxTox) (rest : M Model.t unit)
    (self : Model.t) :
  (forall self0, exists self', rest self0 = (inr tt, self')) ->
  (exists self', after_ox_tox r rest self = (inr tt, self')) \/
  (exists e, after_ox_tox r rest self = (inl e, self) /\ r = inl e).
Proof.
  intros Hrest. destruct r as [e|o]; simpl.
  - right. eauto.
  - left. apply Hrest.
Qed.

Lemma Compartment_const_depth_returns (he n2 t : Q) (comp : Compartment.t) :
  0 <= he -> 0 <= n2 -> 0 <= t ->
  exists comp', Compartment.const_depth he n2 t comp = inr comp'.
Proof.
  intros Hhe Hn2 Ht. unfold Compartment.const_depth.
  apply Qltb_ge in Hhe, Hn2, Ht. rewrite Hhe, Hn2, Ht. simpl. eauto.
Qed.

Lemma const_depth_loop_returns (he n2 seg_time : Q) (self0 : Model.t) :
  0 <= he -> 0 <= n2 ->
  exists self',
    (if 0 <? seg_time
     then Model.for_tissues (Compartment.const_depth he n2 seg_time)
     else mret tt) self0 = (inr tt, self').
Proof.
  intros Hhe Hn2. destruct (0 <? seg_time) eqn:Ht.
  - apply Qltb_lt in Ht. apply for_tissues_returns. intros comp.
    apply Compartment_const_depth_returns; lra.
  - eexists. reflexivity.
Qed.

(** X15.  With gas fractions that are not negative, and on an open circuit
    an ambient pressure of at least pp_h2o, [const_depth] is all or nothing:
    either it returns, or the call of the OxTox raised and the model is as
    it was.  No compartment raises, whatever the time is. *)
Theorem const_depth_all_or_nothing (pressure seg_time f_he f_n2 pp_o2 : Q)
    (self : Model.t)
    (Hhe : 0 <= f_he) (Hn2 : 0 <= f_n2)
    (Hh2o : pp_o2 <= 0 ->
            Model.pp_h2o self <= pressure + AMBIANT_PRESSURE_SURFACE) :
  (exists self',
      Model.const_depth pressure seg_time f_he f_n2 pp_o2 self
      = (inr tt, self')) \/
  (exists e,
      Model.const_depth pressure seg_time f_he f_n2 pp_o2 self
      = (inl e, self) /\
      ((exists pp_o2_inspired,
           add_o2 (Model.ox_tox self) seg_time pp_o2_inspired = inl e) \/
       remove_o2 (Model.ox_tox self) seg_time = inl e)).
Proof.
  destruct (Qlt_le_dec 0 pp_o2) as [Hpp|Hpp].
  - rewrite (const_depth_closed_circuit _ _ _ _ _ _ Hpp).
    set (p_inert := if 0 <? f_he + f_n2 then _ else 0).
    match goal with
    | |- context [after_ox_tox ?r ?rest self] =>
        destruct (after_ox_tox_all_or_nothing r rest self)
          as [Hret|(e & Hrun & Hr)]
    end.
    + intros self0. apply const_depth_loop_returns.
      * destruct (0 <? p_inert) eqn:Hinert; [|lra].
        apply Qltb_lt in Hinert.
        assert (Hsum : 0 < f_he + f_n2).
        { unfold p_inert in Hinert. destruct (0 <? f_he + f_n2) eqn:E.
          - now apply Qltb_lt in E.
          - lra. }
        apply Qle_shift_div_l; [exact Hsum|].
        rewrite Qmult_0_l. apply Qmult_le_0_compat; lra.
      * destruct (0 <? p_inert) eqn:Hinert; [|lra].
        apply Qltb_lt in Hinert.
        assert (Hsum : 0 < f_he + f_n2).
        { unfold p_inert in Hinert. destruct (0 <? f_he + f_n2) eqn:E.
          - now apply Qltb_lt in E.
          - lra. }
        apply Qle_shift_div_l; [exact Hsum|].
        rewrite Qmult_0_l. apply Qmult_le_0_compat; lra.
    + left. exact Hret.
    + right. exists e. split; [exact Hrun|]. left. eauto.
  - rewrite (const_depth_open_circuit _ _ _ _ _ _ Hpp).
    specialize (Hh2o Hpp).
    match goal with
    | |- context [after_ox_tox ?r ?rest self] =>
        destruct (after_ox_tox_all_or_nothing r rest self)
          as [Hret|(e & Hrun & Hr)]
    end.
    + intros self0. apply const_depth_loop_returns;
        apply Qmult_le_0_compat; lra.
    + left. exact Hret.
    + right. exists e. split; [exact Hrun|].
      destruct (pressure =? 0); [right | left]; eauto.
Qed.




End AllOrNothing.

(** Ten minutes at 3 bar on air, for the fresh model. *)
Lemma const_depth_all_or_nothing_witness :
  0 <= 0 /\ 0 <= 0.79 /\
  Model.pp_h2o fresh_model <= 3 + @AMBIANT_PRESSURE_SURFACE recording_env /\
  exists self', Model.const_depth 3 600 0 0.79 0 fresh_model = (inr tt, self').
Proof.
  assert (Hhe : 0 <= 0) by discriminate.
  assert (Hn2 : 0 <= 0.79) by discriminate.
  assert (Hh2o : Model.pp_h2o fresh_model
                 <= 3 + @AMBIANT_PRESSURE_SURFACE recording_env)
    by discriminate.
  split; [exact Hhe|]. split; [exact Hn2|]. split; [exact Hh2o|].
  destruct (@const_depth_all_or_nothing recording_env 3 600 0 0.79 0
              fresh_model Hhe Hn2 (fun _ => Hh2o))
    as [Hret|(e & _ & [(p & Hadd)|Hrem])].
  - exact Hret.
  - discriminate.
  - discriminate.
Defined.


(** ** What a clone holds *)

Section Copies.
Context `{Env}.

Lemma bind_run {S A B} (c : M S A) (f : A -> M S B) (s s' : S) (a : A) :
  c s = (inr a, s') -> (c ≫= f) s = f a s'.
Proof. intros Hc. unfold mbind, M_mbind, M_bind. now rewrite Hc. Qed.

Lemma bind_raise {S A B} (c : M S A) (f : A -> M S B) (s s' : S) (e : exn) :
  c s = (inl e, s') -> (c ≫= f) s = (inl e, s').
Proof. intros Hc. unfold mbind, M_mbind, M_bind. now rewrite Hc. Qed.

Lemma load_model_at (h : Heap.heap) (l : Heap.loc) u tl ox g p md :
  h !! l = Some (Heap.OModel u tl ox g p md) ->
  Heap.load_model l h = (inr (u, tl, ox, g, p, md), h).
Proof.
  intros Hl. unfold Heap.load_model, Heap.load.
  unfold mbind, M_mbind, M_bind. now rewrite Hl.
Qed.

Lemma load_list_at (h : Heap.heap) (l : Heap.loc) (ls : list Heap.loc) :
  h !! l = Some (Heap.OList ls) -> Heap.load_list l h = (inr ls, h).
Proof.
  intros Hl. unfold Heap.load_list, Heap.load.
  unfold mbind, M_mbind, M_bind. now rewrite Hl.
Qed.

Lemma deepcopy_at (h : Heap.heap) (l : Heap.loc) (o : Heap.obj) :
  h !! l = Some o -> Heap.is_leaf o = true ->
  Heap.deepcopy l h = (inr (length h), h ++ [o]).
Proof.
  intros Hl Hleaf. unfold Heap.deepcopy, Heap.load.
  unfold mbind, M_mbind, M_bind. now rewrite Hl, Hleaf.
Qed.

Lemma for_list_new (l : list Compartment.t) (h : Heap.heap) :
  Heap.for_list (fun comp => Heap.new (Heap.OCompartment comp)) l h
  = (inr (seq (length h) (length l)), h ++ (Heap.OCompartment <$> l)).
Proof.
  revert h. induction l as [|comp l IH]; intros h; simpl.
  - unfold mret, M_mret, M_ret. now rewrite app_nil_r.
  - unfold mbind, M_mbind, M_bind, Heap.new at 1. rewrite IH.
    unfold mret, M_mret, M_ret. rewrite length_app. simpl.
    rewrite Nat.add_1_r, <- app_assoc. reflexivity.
Qed.

Lemma cloning_view (h0 h : Heap.heap) (newobj : Heap.loc) (w : Model.t) :
  cloning h0 h newobj w -> Heap.view h newobj = Some w.
Proof.
  intros (_ & _ & tl & ox & g & ls & Hn & Htl & _ & Hox & Hg & Hls).
  unfold Heap.view. rewrite Hn, Htl, Hox, Hg.
  assert (Hcomps : mapM (Heap.view_compartment h) ls = Some (Model.tissues w)).
  { apply mapM_Some. eapply Forall2_impl; [exact Hls|].
    intros lc comp Hlc. unfold Heap.view_compartment. now rewrite Hlc. }
  rewrite Hcomps. now destruct w.
Qed.

Lemma cloning_new (h0 h : Heap.heap) (newobj : Heap.loc) (w : Model.t)
    (o : Heap.obj) :
  cloning h0 h newobj w -> cloning h0 (h ++ [o]) newobj w.
Proof.
  intros (Hext & Hlen & tl & ox & g & ls & Hn & Htl & Htl' & Hox & Hg & Hls).
  split; [|split; [exact Hlen|]].
  - intros l o' Hl. apply lookup_app_l_Some, Hext, Hl.
  - exists tl, ox, g, ls.
    split; [now apply lookup_app_l_Some|].
    split; [now apply lookup_app_l_Some|]. split; [exact Htl'|].
    split; [now apply lookup_app_l_Some|].
    split; [now apply lookup_app_l_Some|].
    eapply Forall2_impl; [exact Hls|].
    intros lc comp Hlc. now apply lookup_app_l_Some.
Qed.

Lemma cloning_store (h0 h : Heap.heap) (newobj : Heap.loc) (w : Model.t)
    u tl ox g p md u' ox' g' p' md' o' gr' :
  cloning h0 h newobj w ->
  h !! newobj = Some (Heap.OModel u tl ox g p md) ->
  h !! ox' = Some (Heap.OOxTox o') ->
  h !! g' = Some (Heap.OGradient gr') ->
  cloning h0 (<[newobj := Heap.OModel u' tl ox' g' p' md']> h) newobj
    (Model.mk u' (Model.tissues w) o' gr' p' md').
Proof.
  intros (Hext & Hlen & tl0 & ox0 & g0 & ls & Hn & Htl & Htl' & _ & _ & Hls)
         Hn' Hox' Hg'.
  rewrite Hn in Hn'. injection Hn' as _ <- _ _ _ _.
  assert (Hother : forall l o, h !! l = Some o -> l <> newobj ->
                               <[newobj := Heap.OModel u' tl0 ox' g' p' md']> h
                               !! l = Some o).
  { intros l o Hl Hne. now rewrite list_lookup_insert_ne by congruence. }
  split; [|split; [exact Hlen|]].
  - intros l o Hl. apply Hother; [apply Hext, Hl|].
    apply lookup_lt_Some in Hl. lia.
  - exists tl0, ox', g', ls. simpl.
    split. { apply list_lookup_insert_eq. eapply lookup_lt_Some, Hn. }
    split. { apply Hother; [exact Htl | congruence]. }
    split; [exact Htl'|].
    split. { apply Hother; [exact Hox' | congruence]. }
    split. { apply Hother; [exact Hg' | congruence]. }
    eapply Forall2_impl; [exact Hls|].
    intros lc comp Hlc. apply Hother; [exact Hlc | congruence].
Qed.

Lemma cloning_alloc_model (h0 : Heap.heap) (v : Model.t) :
  exists newobj h,
    Heap.alloc_model v h0 = (inr newobj, h) /\ cloning h0 h newobj v.
Proof.
  unfold Heap.alloc_model.
  set (n := length h0). set (ts := Model.tissues v).
  set (h1 := (h0 ++ [Heap.OOxTox (Model.ox_tox v)])
             ++ [Heap.OGradient (Model.gradient v)]).
  set (h2 := h1 ++ (Heap.OCompartment <$> ts)).
  set (tlo := Heap.OList (seq (length h1) (length ts))).
  set (mo := Heap.OModel (Model.units v) (length h2) n (S n)
               (Model.pp_h2o v) (Model.metadata v)).
  exists (length (h2 ++ [tlo])), ((h2 ++ [tlo]) ++ [mo]).
  assert (Hlen1 : length h1 = S (S n)).
  { unfold h1. rewrite !length_app. simpl. lia. }
  assert (Hlen2 : length h2 = (S (S n) + length ts)%nat).
  { unfold h2. rewrite length_app, length_fmap. lia. }
  split.
  - unfold mbind, M_mbind, M_bind, Heap.new at 1 2. simpl.
    fold n. fold h1. fold ts.
    assert (Hg : length (h0 ++ [Heap.OOxTox (Model.ox_tox v)]) = S n).
    { rewrite length_app. simpl. lia. }
    rewrite Hg, for_list_new. fold h2. unfold Heap.new. reflexivity.
  - split; [|split].
    + intros l o Hl. unfold h2, h1.
      do 5 apply lookup_app_l_Some. exact Hl.
    + rewrite length_app, Hlen2. simpl. lia.
    + exists (length h2), n, (S n), (seq (length h1) (length ts)).
      split.
      { rewrite lookup_app_r by lia. now rewrite Nat.sub_diag. }
      split.
      { apply lookup_app_l_Some. rewrite lookup_app_r by lia.
        now rewrite Nat.sub_diag. }
      split; [lia|].
      split.
      { unfold h2, h1. do 4 apply lookup_app_l_Some.
        rewrite lookup_app_r by (fold n; lia). fold n.
        now rewrite Nat.sub_diag. }
      split.
      { unfold h2, h1. do 3 apply lookup_app_l_Some.
        rewrite lookup_app_r by (rewrite length_app; simpl; fold n; lia).
        rewrite length_app. simpl. fold n.
        replace (S n - (n + 1))%nat with 0%nat by lia. reflexivity. }
      apply Forall2_same_length_lookup. split; [now rewrite length_seq|].
      intros i lc comp Hlc Hcomp.
      apply lookup_seq in Hlc as [-> Hi].
      do 2 apply lookup_app_l_Some. unfold h2.
      rewrite lookup_app_r by lia.
      replace (length h1 + i - length h1)%nat with i by lia.
      rewrite list_lookup_fmap. unfold ts. now rewrite Hcomp.
Qed.

Lemma cloning_copy_tissue (h0 h : Heap.heap) (newobj : Heap.loc) (w : Model.t)
    (self_tissues : list Heap.loc) (i : nat) (lc : Heap.loc)
    (comp : Compartment.t) :
  cloning h0 h newobj w ->
  self_tissues !! i = Some lc ->
  h !! lc = Some (Heap.OCompartment comp) ->
  if decide (i < length (Model.tissues w))%nat
  then exists h',
         Heap.copy_tissue self_tissues newobj i h = (inr tt, h') /\
         cloning h0 h' newobj
           (Model.set_tissues (<[i := comp]> (Model.tissues w)) w)
  else exists h',
         Heap.copy_tissue self_tissues newobj i h = (inl IndexError, h').
Proof.
  intros Hstate Hi Hlc. unfold Heap.copy_tissue. rewrite Hi.
  rewrite (bind_run _ _ _ _ _ (deepcopy_at h lc _ Hlc eq_refl)).
  apply (cloning_new _ _ _ _ (Heap.OCompartment comp)) in Hstate.
  assert (Hnew : (h ++ [Heap.OCompartment comp]) !! length h
                 = Some (Heap.OCompartment comp)).
  { rewrite lookup_app_r by lia. now rewrite Nat.sub_diag. }
  set (h1 := h ++ [Heap.OCompartment comp]) in *.
  destruct Hstate
    as (Hext & Hlen & tl & ox & g & ls & Hn & Htl & Htl' & Hox & Hg & Hls).
  rewrite (bind_run _ _ _ _ _ (load_model_at _ _ _ _ _ _ _ _ Hn)).
  rewrite (bind_run _ _ _ _ _ (load_list_at _ _ _ Htl)).
  rewrite (Forall2_length _ _ _ Hls).
  destruct (decide (i < length (Model.tissues w))%nat) as [Hlt|Hge];
    [|eexists; reflexivity].
  eexists. split; [reflexivity|].
  assert (Hother : forall l o,
             h1 !! l = Some o -> l <> tl ->
             <[tl := Heap.OList (<[i := length h]> ls)]> h1 !! l = Some o).
  { intros l o Hl Hne. now rewrite list_lookup_insert_ne by congruence. }
  split; [|split; [exact Hlen|]].
  - intros l o Hl. apply Hother; [apply Hext, Hl|].
    apply lookup_lt_Some in Hl. lia.
  - exists tl, ox, g, (<[i := length h]> ls). simpl.
    split. { apply Hother; [exact Hn | congruence]. }
    split. { apply list_lookup_insert_eq. eapply lookup_lt_Some, Htl. }
    split; [exact Htl'|].
    split. { apply Hother; [exact Hox | congruence]. }
    split. { apply Hother; [exact Hg | congruence]. }
    apply Forall2_insert.
    + eapply Forall2_impl; [exact Hls|].
      intros lc' comp' Hlc'. apply Hother; [exact Hlc' | congruence].
    + apply Hother; [exact Hnew | congruence].
Qed.

Lemma view_inv (h : Heap.heap) (l : Heap.loc) (v : Model.t) :
  Heap.view h l = Some v ->
  exists tl ox g ls,
    h !! l = Some (Heap.OModel (Model.units v) tl ox g (Model.pp_h2o v)
                     (Model.metadata v)) /\
    h !! tl = Some (Heap.OList ls) /\
    h !! ox = Some (Heap.OOxTox (Model.ox_tox v)) /\
    h !! g = Some (Heap.OGradient (Model.gradient v)) /\
    Forall2 (fun lc comp => h !! lc = Some (Heap.OCompartment comp))
            ls (Model.tissues v).
Proof.
  unfold Heap.view.
  destruct (h !! l) as [[| | | |u tl ox g p md]|] eqn:Hl; try discriminate.
  destruct (h !! tl) as [[| | |ls|]|] eqn:Htl; try discriminate.
  destruct (h !! ox) as [[|o| | |]|] eqn:Hox; try discriminate.
  destruct (h !! g) as [[| |gr| |]|] eqn:Hg; try discriminate.
  destruct (mapM (Heap.view_compartment h) ls) as [comps|] eqn:Hcomps;
    [|discriminate].
  intros [= <-]. exists tl, ox, g, ls. simpl.
  repeat (split; [assumption || reflexivity|]).
  apply mapM_Some in Hcomps. eapply Forall2_impl; [exact Hcomps|].
  intros lc comp. unfold Heap.view_compartment.
  destruct (h !! lc) as [[comp'| | | |]|]; congruence.
Qed.

Lemma cloning_inv (h0 h : Heap.heap) (newobj : Heap.loc) (w : Model.t) :
  cloning h0 h newobj w ->
  exists tl ox g,
    h !! newobj
    = Some (Heap.OModel (Model.units w) tl ox g (Model.pp_h2o w)
              (Model.metadata w)) /\
    h !! ox = Some (Heap.OOxTox (Model.ox_tox w)) /\
    h !! g = Some (Heap.OGradient (Model.gradient w)).
Proof.
  intros (_ & _ & tl & ox & g & ls & Hn & _ & _ & Hox & Hg & _). eauto 6.
Qed.

(** The loop of [__deepcopy__] over the compartments numbered [s] to
    [s + n - 1], when the clone has that many. *)
Lemma cloning_copy_loop (h0 : Heap.heap) (newobj : Heap.loc)
    (self_tissues : list Heap.loc) (comps : list Compartment.t) :
  Forall2 (fun lc comp => h0 !! lc = Some (Heap.OCompartment comp))
          self_tissues comps ->
  forall n s h w,
    cloning h0 h newobj w ->
    (s + n <= length self_tissues)%nat ->
    (s + n <= length (Model.tissues w))%nat ->
    exists r h' l',
      Heap.for_list (Heap.copy_tissue self_tissues newobj) (seq s n) h
      = (inr r, h') /\
      cloning h0 h' newobj (Model.set_tissues l' w) /\
      length l' = length (Model.tissues w) /\
      forall j, l' !! j = if decide (s <= j < s + n)%nat
                          then comps !! j else Model.tissues w !! j.
Proof.
  intros Hself. induction n as [|n IH]; intros s h w Hstate Hs Hw.
  - exists [], h, (Model.tissues w). simpl.
    split; [reflexivity|]. split; [now destruct w|]. split; [reflexivity|].
    intros j. destruct (decide _); [lia | reflexivity].
  - destruct (lookup_lt_is_Some_2 self_tissues s) as [lc Hlc]; [lia|].
    destruct (Forall2_lookup_l _ _ _ _ _ Hself Hlc) as (comp & Hcomp & Hobj).
    assert (Hobj' : h !! lc = Some (Heap.OCompartment comp)).
    { destruct Hstate as [Hext _]. apply Hext, Hobj. }
    pose proof (cloning_copy_tissue h0 h newobj w self_tissues s lc comp
                  Hstate Hlc Hobj') as Hstep.
    destruct (decide (s < length (Model.tissues w))%nat); [|lia].
    destruct Hstep as (h1 & Hrun1 & Hstate1).
    destruct (IH (S s) h1 _ Hstate1) as (r & h' & l' & Hrun & Hstate' & Hlen & Hl').
    { lia. }
    { simpl. rewrite length_insert. lia. }
    exists (tt :: r), h', l'. simpl in *.
    split.
    { rewrite (bind_run _ _ _ _ _ Hrun1), (bind_run _ _ _ _ _ Hrun).
      reflexivity. }
    split; [now destruct w|].
    split; [now rewrite Hlen, length_insert|].
    intros j. rewrite Hl'.
    destruct (decide (S s <= j < S (s + n))%nat) as [Hin|Hout].
    + destruct (decide (s <= j < s + S n)%nat); [reflexivity | lia].
    + destruct (decide (j = s)) as [->|Hne].
      * rewrite list_lookup_insert_eq by lia.
        destruct (decide (s <= s < s + S n)%nat); [now rewrite Hcomp | lia].
      * rewrite list_lookup_insert_ne by congruence.
        destruct (decide (s <= j < s + S n)%nat); [lia | reflexivity].
Qed.

(** The same loop when the clone has fewer compartments than it is asked
    to copy. *)
Lemma cloning_copy_loop_index_error (h0 : Heap.heap) (newobj : Heap.loc)
    (self_tissues : list Heap.loc) (comps : list Compartment.t) :
  Forall2 (fun lc comp => h0 !! lc = Some (Heap.OCompartment comp))
          self_tissues comps ->
  forall n s h w,
    cloning h0 h newobj w ->
    (s + n <= length self_tissues)%nat ->
    (s <= length (Model.tissues w) < s + n)%nat ->
    exists h',
      Heap.for_list (Heap.copy_tissue self_tissues newobj) (seq s n) h
      = (inl IndexError, h') /\
      extends h0 h'.
Proof.
  intros Hself. induction n as [|n IH]; intros s h w Hstate Hs Hw; [lia|].
  destruct (lookup_lt_is_Some_2 self_tissues s) as [lc Hlc]; [lia|].
  destruct (Forall2_lookup_l _ _ _ _ _ Hself Hlc) as (comp & Hcomp & Hobj).
  assert (Hobj' : h !! lc = Some (Heap.OCompartment comp)).
  { destruct Hstate as [Hext _]. apply Hext, Hobj. }
  pose proof (cloning_copy_tissue h0 h newobj w self_tissues s lc comp
                Hstate Hlc Hobj') as Hstep.
  simpl.
  destruct (decide (s < length (Model.tissues w))%nat).
  - destruct Hstep as (h1 & Hrun1 & Hstate1).
    destruct (IH (S s) h1 _ Hstate1) as (h' & Hrun & Hext).
    { lia. }
    { simpl. rewrite length_insert. lia. }
    exists h'. rewrite (bind_run _ _ _ _ _ Hrun1), (bind_raise _ _ _ _ _ Hrun).
    split; [reflexivity | exact Hext].
  - destruct Hstep as (h1 & Hrun1).
    exists h1. rewrite (bind_raise _ _ _ _ _ Hrun1).
    split; [reflexivity|].
    revert Hrun1. unfold Heap.copy_tissue. rewrite Hlc.
    rewrite (bind_run _ _ _ _ _ (deepcopy_at h lc _ Hobj' eq_refl)).
    apply (cloning_new _ _ _ _ (Heap.OCompartment comp)) in Hstate.
    destruct Hstate
      as (Hext & Hlen & tl & ox & g & ls & Hn & Htl & Htl' & Hox & Hg & Hls).
    rewrite (bind_run _ _ _ _ _ (load_model_at _ _ _ _ _ _ _ _ Hn)).
    rewrite (bind_run _ _ _ _ _ (load_list_at _ _ _ Htl)).
    destruct (decide _); intros [= <-]; exact Hext.
Qed.

Lemma init_fields (v0 : Model.t) :
  Model.__init__ = inr v0 ->
  length (Model.tissues v0) = Model.COMPS /\
  Model.pp_h2o v0 = calculate_pp_h2o_surf SURFACE_TEMP.
Proof.
  unfold Model.__init__.
  set (self0 := Model.mk _ _ _ _ _ _).
  destruct (set_time_constants_frame None self0) as (l' & Hrun & Hpp).
  apply Forall2_length in Hpp.
  unfold mbind, M_mbind, M_bind.
  destruct (Model.set_time_constants None self0) as [[e|[]] self1];
    [discriminate|].
  simpl in Hrun. subst self1.
  set (m := Compartment.set_pp _ _).
  pose proof (for_tissues_length m (Model.set_tissues l' self0)) as Hlen.
  unfold Model.for_tissues in *.
  destruct (Model.for_each m _) as [l [e|]]; [discriminate|].
  intros [= <-]. simpl in *. split; [|reflexivity].
  rewrite Hlen, <- Hpp. reflexivity.
Qed.

Lemma store_run (l : Heap.loc) (o : Heap.obj) (h : Heap.heap) :
  Heap.store l o h = (inr tt, <[l := o]> h).
Proof. reflexivity. Qed.

Lemma lookup_new (h : Heap.heap) (o : Heap.obj) :
  (h ++ [o]) !! length h = Some o.
Proof. rewrite lookup_app_r by lia. now rewrite Nat.sub_diag. Qed.

(** [__deepcopy__] up to its loop: the new model has the units, the OxTox,
    the gradient and the metadata of the original, in objects of its own,
    and still the compartments and the pp_h2o that [Model()] gave it. *)
Lemma deepcopy_before_loop (h : Heap.heap) (self : Heap.loc)
    (v v0 : Model.t) :
  Heap.view h self = Some v -> Model.__init__ = inr v0 ->
  exists newobj hd self_tissues,
    cloning h hd newobj
      (Model.mk (Model.units v) (Model.tissues v0) (Model.ox_tox v)
         (Model.gradient v) (Model.pp_h2o v0) (Model.metadata v)) /\
    Forall2 (fun lc comp => h !! lc = Some (Heap.OCompartment comp))
            self_tissues (Model.tissues v) /\
    Heap.__deepcopy__ self h
    = (Heap.for_list (Heap.copy_tissue self_tissues newobj)
         (seq 0 (length self_tissues)) ;; mret newobj) hd.
Proof.
  intros Hview Hinit.
  destruct (view_inv _ _ _ Hview)
    as (stl & sox & sg & sls & Hs & Hstl & Hsox & Hsg & Hsls).
  destruct (cloning_alloc_model h v0) as (newobj & ha & Hrun_a & Hst_a).
  (* newobj.units = self.units *)
  destruct (cloning_inv _ _ _ _ Hst_a) as (tl1 & ox1 & g1 & Hn1 & Hox1 & Hg1).
  pose proof (cloning_store _ _ _ _ _ _ _ _ _ _ (Model.units v) ox1 g1
                (Model.pp_h2o v0) (Model.metadata v0) _ _
                Hst_a Hn1 Hox1 Hg1) as Hst_b.
  set (hb := <[newobj := _]> ha) in Hst_b.
  (* newobj.ox_tox = copy.deepcopy(self.ox_tox) *)
  assert (Hsox_b : hb !! sox = Some (Heap.OOxTox (Model.ox_tox v))).
  { destruct Hst_b as [Hext _]. apply Hext, Hsox. }
  apply (cloning_new _ _ _ _ (Heap.OOxTox (Model.ox_tox v))) in Hst_b.
  destruct (cloning_inv _ _ _ _ Hst_b) as (tl2 & ox2 & g2 & Hn2 & Hox2 & Hg2).
  pose proof (cloning_store _ _ _ _ _ _ _ _ _ _ (Model.units v) (length hb) g2
                (Model.pp_h2o v0) (Model.metadata v0) _ _
                Hst_b Hn2 (lookup_new hb _) Hg2) as Hst_c.
  set (hc := <[newobj := _]> (hb ++ _)) in Hst_c.
  (* newobj.gradient = copy.deepcopy(self.gradient) *)
  assert (Hsg_c : hc !! sg = Some (Heap.OGradient (Model.gradient v))).
  { destruct Hst_c as [Hext _]. apply Hext, Hsg. }
  apply (cloning_new _ _ _ _ (Heap.OGradient (Model.gradient v))) in Hst_c.
  destruct (cloning_inv _ _ _ _ Hst_c) as (tl3 & ox3 & g3 & Hn3 & Hox3 & Hg3).
  pose proof (cloning_store _ _ _ _ _ _ _ _ _ _ (Model.units v) ox3 (length hc)
                (Model.pp_h2o v0) (Model.metadata v0) _ _
                Hst_c Hn3 Hox3 (lookup_new hc _)) as Hst_d.
  set (hd := <[newobj := _]> (hc ++ _)) in Hst_d.
  (* newobj.metadata = self.metadata *)
  destruct (cloning_inv _ _ _ _ Hst_d) as (tl4 & ox4 & g4 & Hn4 & Hox4 & Hg4).
  pose proof (cloning_store _ _ _ _ _ _ _ _ _ _ (Model.units v) ox4 g4
                (Model.pp_h2o v0) (Model.metadata v) _ _
                Hst_d Hn4 Hox4 Hg4) as Hst_e.
  set (he := <[newobj := _]> hd) in Hst_e.
  exists newobj, he, sls. simpl in *.
  split; [exact Hst_e|]. split; [exact Hsls|].
  assert (Hs_a : ha !! self = Some (Heap.OModel (Model.units v) stl sox sg
                                      (Model.pp_h2o v) (Model.metadata v))).
  { destruct Hst_a as [Hext _]. apply Hext, Hs. }
  assert (Hstl_e : he !! stl = Some (Heap.OList sls)).
  { destruct Hst_e as [Hext _]. apply Hext, Hstl. }
  unfold Heap.__deepcopy__, Heap.Model_new.
  rewrite Hinit.
  assert (Hnew : (lift (inr v0) ≫= Heap.alloc_model) h = (inr newobj, ha))
    by exact Hrun_a.
  rewrite (bind_run _ _ _ _ _ Hnew).
  rewrite (bind_run _ _ _ _ _ (load_model_at _ _ _ _ _ _ _ _ Hs_a)).
  rewrite (bind_run _ _ _ _ _ (load_model_at _ _ _ _ _ _ _ _ Hn1)).
  rewrite (bind_run _ _ _ _ _ (store_run _ _ _)). fold hb.
  rewrite (bind_run _ _ _ _ _ (deepcopy_at _ _ _ Hsox_b eq_refl)).
  rewrite (bind_run _ _ _ _ _ (load_model_at _ _ _ _ _ _ _ _ Hn2)).
  rewrite (bind_run _ _ _ _ _ (store_run _ _ _)). fold hc.
  rewrite (bind_run _ _ _ _ _ (deepcopy_at _ _ _ Hsg_c eq_refl)).
  rewrite (bind_run _ _ _ _ _ (load_model_at _ _ _ _ _ _ _ _ Hn3)).
  rewrite (bind_run _ _ _ _ _ (store_run _ _ _)). fold hd.
  rewrite (bind_run _ _ _ _ _ (load_model_at _ _ _ _ _ _ _ _ Hn4)).
  rewrite (bind_run _ _ _ _ _ (store_run _ _ _)). fold he.
  rewrite (bind_run _ _ _ _ _ (load_list_at _ _ _ Hstl_e)).
  reflexivity.
Qed.

(** X17.  [__deepcopy__] of a sound model of at most 16 compartments
    returns a new model with the units, the compartments, the OxTox, the
    gradient and the metadata of the original, and leaves the original as it
    was.  Two things are not copied: pp_h2o is the one that [Model()]
    derives from the settings, and the compartments that the original lacks
    are those of [Model()].  An original with more than 16 compartments
    makes it raise [IndexError]. *)
Theorem deepcopy_result (h : Heap.heap) (self : Heap.loc) (v v0 : Model.t)
    (Hview : Heap.view h self = Some v) (Hinit : Model.__init__ = inr v0) :
  if decide (length (Model.tissues v) <= Model.COMPS)%nat
  then exists clone h1,
         Heap.__deepcopy__ self h = (inr clone, h1) /\
         (length h <= clone)%nat /\
         Heap.view h1 clone
         = Some (Model.mk (Model.units v)
                   (Model.tissues v
                    ++ drop (length (Model.tissues v)) (Model.tissues v0))
                   (Model.ox_tox v) (Model.gradient v)
                   (calculate_pp_h2o_surf SURFACE_TEMP) (Model.metadata v)) /\
         Heap.view h1 self = Some v
  else exists h1,
         Heap.__deepcopy__ self h = (inl IndexError, h1) /\
         Heap.view h1 self = Some v.
Proof.
  destruct (deepcopy_before_loop h self v v0 Hview Hinit)
    as (newobj & hd & sls & Hst & Hsls & ->).
  destruct (init_fields v0 Hinit) as [Hlen0 Hp].
  pose proof (Forall2_length _ _ _ Hsls) as Hlen.
  destruct (decide (length (Model.tissues v) <= Model.COMPS)%nat) as [Hle|Hgt].
  - destruct (cloning_copy_loop h newobj sls (Model.tissues v) Hsls
                (length sls) 0 hd _ Hst)
      as (r & h' & l' & Hrun & Hst' & Hlen' & Hl'); [lia | simpl; lia|].
    exists newobj, h'. rewrite (bind_run _ _ _ _ _ Hrun).
    split; [reflexivity|].
    split; [apply Hst|].
    split; [|eapply view_extends; [apply Hst' | exact Hview]].
    rewrite (cloning_view _ _ _ _ Hst'). unfold Model.set_tissues. simpl.
    rewrite Hp. do 2 f_equal.
    apply list_eq. intros j. rewrite Hl'. simpl in *.
    destruct (decide (0 <= j < length sls)%nat) as [Hin|Hout].
    + now rewrite lookup_app_l by lia.
    + rewrite lookup_app_r by lia. rewrite lookup_drop. f_equal. lia.
  - destruct (cloning_copy_loop_index_error h newobj sls (Model.tissues v)
                Hsls (length sls) 0 hd _ Hst)
      as (h' & Hrun & Hext); [lia | simpl; lia|].
    exists h'. rewrite (bind_raise _ _ _ _ _ Hrun).
    split; [reflexivity|]. eapply view_extends; [exact Hext | exact Hview].
Qed.

End Copies.

(** The clone of the fresh model, the only object of its store. *)
Lemma deepcopy_result_witness :
  Heap.view fresh_heap 19 = Some fresh_model /\
  @Model.__init__ recording_env = inr fresh_model /\
  exists clone h1,
    Heap.__deepcopy__ 19 fresh_heap = (inr clone, h1) /\
    Heap.view h1 clone = Some fresh_model.
Proof.
  assert (Hview : Heap.view fresh_heap 19 = Some fresh_model)
    by (vm_compute; reflexivity).
  assert (Hinit : @Model.__init__ recording_env = inr fresh_model)
    by (vm_compute; reflexivity).
  split; [exact Hview|]. split; [exact Hinit|].
  pose proof (@deepcopy_result recording_env fresh_heap 19%nat fresh_model
                fresh_model Hview Hinit) as Hcopy.
  destruct (decide (length (Model.tissues fresh_model) <= Model.COMPS)%nat)
    as [_|Hgt]; [|exfalso; apply Hgt; vm_compute; lia].
  destruct Hcopy as (clone & h1 & Hrun & _ & Hclone & _).
  exists clone, h1. split; [exact Hrun|].
  rewrite Hclone. vm_compute. reflexivity.
Defined.
